(** * Blob transaction construction (package rpc, tx_blob.go)

    A shallow embedding of [TransactBlobTx], [createBlobTx], [getNonce] and
    [MakeSidecarWithSingleBlob], followed by the properties of the
    construction engine that the specification states about them.

    Conventions of the embedding:
    - [*big.Int] is [Z]; [uint64] and [uint256.Int] are [Z] with the
      wrap-around of every conversion written out;
    - a nilable pointer or function field is an [option];
    - a Go function of this file returning [(T, error)] returns a pair of
      options, so that what travels next to an error stays visible;
    - the chain client is a record of responses, and every request issued to
      it is appended to a log;
    - a run-time panic is an outcome of its own. *)

From Stdlib Require Import ZArith List String Lia Bool DecimalString.
From Stdlib.Strings Require Import Byte.
Import ListNotations.
Open Scope Z_scope.

(** ** The Go values the file works with *)
Module Go.

(** A Go [error]: a value built in this file by [errors.New] or
    [fmt.Errorf] (an [errorString]), or the error value of a collaborator
    (client, signer, kzg library), which the file passes on as it is. A
    collaborator's failure is given by its message, of type [failure]. *)
Definition failure : Type := string.

Inductive error : Type :=
| errorString (msg : string)
| foreign (cause : failure).

Definition errors_New (msg : string) : error := errorString msg.

Definition Error (e : error) : string :=
  match e with errorString m => m | foreign m => m end.

(** [len(s)] *)
Definition len {A : Type} (s : list A) : Z := Z.of_nat (List.length s).

(** [copy(dst, src)]: the first [min(len(dst), len(src))] elements of
    [src] overwrite those of [dst]; [dst] keeps its length. *)
Definition copy {A : Type} (dst src : list A) : list A :=
  let n := Nat.min (List.length dst) (List.length src) in
  firstn n src ++ skipn n dst.

(** [x.Uint64()] of a big.Int: the low 64 bits of the magnitude (Go documents the
    result as undefined when the value does not fit a [uint64]; this is what
    math/big computes). *)
Definition Uint64 (x : Z) : Z := Z.abs x mod 2 ^ 64.

(** [%v] of a [*big.Int]: its decimal digits, with a sign when negative. *)
Definition fmt_v (x : Z) : string := NilZero.string_of_int (Z.to_int x).

(** [strings.Contains(s, sub)] *)
Fixpoint Contains (s sub : string) : bool :=
  if String.prefix sub s then true
  else match s with
       | EmptyString => false
       | String _ s' => Contains s' sub
       end.

End Go.

(** ** github.com/holiman/uint256 *)
Module uint256.

Definition modulus : Z := 2 ^ 256.

(** [uint256.NewInt(x)] widens a [uint64]. *)
Definition NewInt (x : Z) : Z := x.

(** [z.SetFromBig(b)]: the value left in [z] (two's complement of the
    magnitude for a negative [b]) and the overflow flag. *)
Definition SetFromBig (b : Z) : Z * bool :=
  (b mod modulus, modulus <=? Z.abs b).

(** [uint256.MustFromBig(b)]: [None] stands for the panic on overflow. *)
Definition MustFromBig (b : Z) : option Z :=
  let (z, overflow) := SetFromBig b in
  if overflow then None else Some z.

End uint256.

(** ** github.com/ethereum/go-ethereum/common *)
Module common.

(** [common.Address] is [[20]byte], [common.Hash] is [[32]byte]. *)
Definition Address : Type := list byte.
Definition Hash : Type := list byte.

(** The zero value of [common.Address]. *)
Definition zeroAddress : Address := repeat x00 20.

End common.

(** ** github.com/ethereum/go-ethereum/crypto/kzg4844 *)
Module kzg4844.

(** [Blob] is [[131072]byte], [Commitment] and [Proof] are [[48]byte]. *)
Definition Blob : Type := list byte.
Definition Commitment : Type := list byte.
Definition Proof : Type := list byte.

Definition BlobLen : nat := Z.to_nat 131072.

(** [kzg4844.Blob{}] *)
Definition zeroBlob : Blob := repeat x00 BlobLen.

End kzg4844.

(** The cryptography and the pricing function of the protocol, which the
    file calls and does not define: [kzg4844.BlobToCommitment],
    [kzg4844.ComputeBlobProof], [kzg4844.CalcBlobHashV1] (behind
    [BlobTxSidecar.BlobHashes]) and [eip4844.CalcBlobFee]. A blob fee is never
    negative. *)
Class Protocol : Type := {
  BlobToCommitment : kzg4844.Blob -> kzg4844.Commitment + Go.failure;
  ComputeBlobProof :
    kzg4844.Blob -> kzg4844.Commitment -> kzg4844.Proof + Go.failure;
  CalcBlobHashV1 : kzg4844.Commitment -> common.Hash;
  CalcBlobFee : Z -> Z;
  CalcBlobFee_nonneg : forall excessBlobGas, 0 <= CalcBlobFee excessBlobGas
}.

(** ** github.com/ethereum/go-ethereum/core/types *)
Module types.

(** The two fields of [types.Header] that the file reads. *)
Record Header : Type := {
  BaseFee : option Z;
  ExcessBlobGas : option Z
}.

Record BlobTxSidecar : Type := {
  Blobs : list kzg4844.Blob;
  Commitments : list kzg4844.Commitment;
  Proofs : list kzg4844.Proof
}.

(** [sc.BlobHashes()] *)
Definition BlobHashes `{Protocol} (sc : BlobTxSidecar) : list common.Hash :=
  map CalcBlobHashV1 (Commitments sc).

Record BlobTx : Type := {
  ChainID : Z;
  Nonce : Z;
  GasTipCap : Z;
  GasFeeCap : Z;
  Gas : Z;
  To : common.Address;
  Value : Z;
  Data : list byte;
  AccessList : list (common.Address * list common.Hash);
  BlobFeeCap : Z;
  BlobHashes_ : list common.Hash;
  Sidecar : option BlobTxSidecar;
  V : option Z;
  R : option Z;
  S : option Z
}.

(** [types.NewTx(inner)] *)
Inductive Transaction : Type :=
| NewTx (inner : BlobTx).

Definition inner (tx : Transaction) : BlobTx :=
  match tx with NewTx b => b end.

End types.

(** [context.Context]: a handle that the file only forwards. *)
Inductive Context : Type :=
| ctx (id : nat).

(** ** github.com/ethereum/go-ethereum (package ethereum) *)
Module ethereum.

Record CallMsg : Type := {
  From : common.Address;
  To : option common.Address;
  GasPrice : option Z;
  GasTipCap : option Z;
  GasFeeCap : option Z;
  Value : option Z;
  Data : list byte
}.

End ethereum.

(** ** github.com/ethereum/go-ethereum/accounts/abi/bind *)
Module bind.

Definition SignerFn : Type :=
  common.Address -> option types.Transaction ->
  types.Transaction + Go.failure.

Record TransactOpts : Type := {
  From : common.Address;
  Nonce : option Z;
  Signer : option SignerFn;
  Value : option Z;
  GasPrice : option Z;
  GasFeeCap : option Z;
  GasTipCap : option Z;
  GasLimit : Z;
  Context_ : Context;
  NoSend : bool
}.

End bind.

(** ** Package rpc *)
Module rpc.
Import Go.

(** The methods of [EthClient] that the file calls. A construction call
    issues each kind of request at most once, so a client is given by its
    response to each request. *)
Record EthClient : Type := {
  HeaderByNumber : Context -> option Z -> types.Header + failure;
  SuggestGasTipCap : Context -> Z + failure;
  EstimateGas : Context -> ethereum.CallMsg -> Z + failure;
  PendingNonceAt : Context -> common.Address -> Z + failure;
  ChainID : Context -> Z + failure;
  SendTransaction : Context -> types.Transaction -> option failure
}.

(** A request issued to the client, with its arguments. *)
Inductive Call : Type :=
| CallHeaderByNumber (c : Context) (number : option Z)
| CallSuggestGasTipCap (c : Context)
| CallEstimateGas (c : Context) (msg : ethereum.CallMsg)
| CallPendingNonceAt (c : Context) (account : common.Address)
| CallChainID (c : Context)
| CallSendTransaction (c : Context) (tx : types.Transaction).

(** How a call of a function ends: it returns, or it panics. *)
Inductive outcome (A : Type) : Type :=
| Done (a : A)
| Panic.
Arguments Done {A} a.
Arguments Panic {A}.

(** A computation: the requests it issued, in order, and how it ended. *)
Definition M (A : Type) : Type := (list Call * outcome A)%type.

Definition ret {A : Type} (a : A) : M A := ([], Done a).

Definition panic {A : Type} : M A := ([], Panic).

Definition bind {A B : Type} (m : M A) (k : A -> M B) : M B :=
  match m with
  | (l1, Done a) => let (l2, r) := k a in (l1 ++ l2, r)
  | (l1, Panic) => (l1, Panic)
  end.

(** Issue request [c], whose response is [resp]. *)
Definition request {A : Type} (c : Call) (resp : A) : M A := ([c], Done resp).

Definition calls {A : Type} (m : M A) : list Call := fst m.
Definition result {A : Type} (m : M A) : outcome A := snd m.

Notation "x <- m ;; k" := (bind m (fun x => k))
  (at level 61, m at next level, right associativity).

(** The value of a conversion that panics on failure. *)
Definition must {A : Type} (o : option A) : M A :=
  match o with Some a => ret a | None => panic end.

(** Modelled from the spec: the package constant [BlobBytes], declared in a
    file of package rpc that is not among the sources; the spec gives the
    blob capacity as 128 KiB. *)
Definition BlobBytes : Z := 131072.

(** MakeSidecarWithSingleBlob make a sidecar that just include one blob. *)
Definition MakeSidecarWithSingleBlob `{Protocol} (data : list byte)
  : option types.BlobTxSidecar * option error :=
  if len data >? BlobBytes then
    (None, Some (errorString "data is bigger than 128k"))
  else
    let blob := copy kzg4844.zeroBlob data in
    match BlobToCommitment blob with
    | inr err => (None, Some (foreign err))
    | inl commitment =>
      match ComputeBlobProof blob commitment with
      | inr err => (None, Some (foreign err))
      | inl proof =>
        (Some {| types.Blobs := [blob];
                 types.Commitments := [commitment];
                 types.Proofs := [proof] |}, None)
      end
    end.

Definition getNonce (c : EthClient) (opts : bind.TransactOpts)
  : M (Z * option error) :=
  match bind.Nonce opts with
  | None =>
    r <- request (CallPendingNonceAt (bind.Context_ opts) (bind.From opts))
                 (PendingNonceAt c (bind.Context_ opts) (bind.From opts)) ;;
    ret (match r with
         | inl n => (n, None)
         | inr err => (0, Some (foreign err))
         end)
  | Some n => ret (Uint64 n, None)
  end.

Definition createBlobTx `{Protocol} (c : EthClient) (opts : bind.TransactOpts)
    (contract : option common.Address) (input blobData : list byte)
  : M (option types.Transaction * option error) :=
  let cx := bind.Context_ opts in
  r <- request (CallHeaderByNumber cx None) (HeaderByNumber c cx None) ;;
  match r with
  | inr err => ret (None, Some (foreign err))
  | inl header =>
  (* Estimate TipCap *)
  r <- match bind.GasTipCap opts with
       | Some tip => ret (inl tip)
       | None => request (CallSuggestGasTipCap cx) (SuggestGasTipCap c cx)
       end ;;
  match r with
  | inr err => ret (None, Some (foreign err))
  | inl gasTipCap =>
  (* Estimate FeeCap *)
  gasFeeCap <- match bind.GasFeeCap opts with
               | Some fee => ret fee
               | None =>
                 match types.BaseFee header with
                 | Some baseFee => ret (gasTipCap + baseFee * 2)
                 | None => panic
                 end
               end ;;
  if gasFeeCap <? gasTipCap then
    ret (None, Some (errorString
      ("maxFeePerGas (" ++ fmt_v gasFeeCap ++
       ") < maxPriorityFeePerGas (" ++ fmt_v gasTipCap ++ ")")))
  else
  (* Estimate GasLimit *)
  r <- (if bind.GasLimit opts =? 0 then
          let msg := {| ethereum.From := bind.From opts;
                        ethereum.To := contract;
                        ethereum.GasPrice := None;
                        ethereum.GasTipCap := Some gasTipCap;
                        ethereum.GasFeeCap := Some gasFeeCap;
                        ethereum.Value := None;
                        ethereum.Data := input |} in
          request (CallEstimateGas cx msg) (EstimateGas c cx msg)
        else ret (inl (bind.GasLimit opts))) ;;
  match r with
  | inr err => ret (None, Some (foreign err))
  | inl gasLimit =>
  (* Get nonce. *)
  r <- match bind.Nonce opts with
       | None => getNonce c opts
       | Some n => ret (Uint64 n, None)
       end ;;
  match r with
  | (_, Some err) => ret (None, Some err)
  | (nonce, None) =>
  (* Get chainID. *)
  r <- request (CallChainID cx) (ChainID c cx) ;;
  match r with
  | inr err => ret (None, Some (foreign err))
  | inl chainID =>
  (* Make sidecar. The source then calls sidecar.BlobHashes() once and drops
     the result; on a nil sidecar that call would fault. *)
  match MakeSidecarWithSingleBlob blobData with
  | (_, Some err) => ret (None, Some err)
  | (None, None) => panic
  | (Some sidecar, None) =>
  (* Calculate blob fee cap. *)
  let blobFeeCap :=
    match types.ExcessBlobGas header with
    | Some excessBlobGas => excessBlobGas
    | None => 100066
    end in
  (* Normalize value *)
  let value :=
    match bind.Value opts with
    | Some v => fst (uint256.SetFromBig v)
    | None => uint256.NewInt 0
    end in
  let addr :=
    match contract with
    | Some a => a
    | None => common.zeroAddress
    end in
  tipCap <- must (uint256.MustFromBig gasTipCap) ;;
  feeCap <- must (uint256.MustFromBig gasFeeCap) ;;
  blobFee <- must (uint256.MustFromBig (CalcBlobFee blobFeeCap)) ;;
  ret (Some (types.NewTx
         {| types.ChainID := uint256.NewInt (Uint64 chainID);
            types.Nonce := nonce;
            types.GasTipCap := tipCap;
            types.GasFeeCap := feeCap;
            types.Gas := gasLimit;
            types.To := addr;
            types.Value := value;
            types.Data := input;
            types.AccessList := [];
            types.BlobFeeCap := blobFee;
            types.BlobHashes_ := types.BlobHashes sidecar;
            types.Sidecar := Some sidecar;
            types.V := None;
            types.R := None;
            types.S := None |}), None)
  end end end end end end.

(** TransactBlobTx create, sign and send blob tx. *)
Definition TransactBlobTx `{Protocol} (c : EthClient)
    (opts : bind.TransactOpts) (contract : option common.Address)
    (input blobData : list byte)
  : M (option types.Transaction * option error) :=
  (* Sign the transaction and schedule it for execution *)
  match bind.Signer opts with
  | None =>
    ret (None, Some (errors_New "no signer to authorize the transaction with"))
  | Some signer =>
    (* Create blob tx. *)
    r <- createBlobTx c opts contract input blobData ;;
    match r with
    | (_, Some err) => ret (None, Some err)
    | (rawTx, None) =>
      match signer (bind.From opts) rawTx with
      | inr err => ret (None, Some (foreign err))
      | inl signedTx =>
        if bind.NoSend opts then ret (Some signedTx, None)
        else
          r <- request (CallSendTransaction (bind.Context_ opts) signedTx)
                       (SendTransaction c (bind.Context_ opts) signedTx) ;;
          match r with
          | Some err => ret (None, Some (foreign err))
          | None => ret (Some signedTx, None)
          end
      end
    end
  end.

(** *** Reading a run *)

(** The method a request is addressed to, numbered in the order in which
    [TransactBlobTx] reaches them. *)
Definition method (request : Call) : nat :=
  match request with
  | CallHeaderByNumber _ _ => 0
  | CallSuggestGasTipCap _ => 1
  | CallEstimateGas _ _ => 2
  | CallPendingNonceAt _ _ => 3
  | CallChainID _ => 4
  | CallSendTransaction _ _ => 5
  end.

(** The gas-estimation requests of a log, in order. *)
Fixpoint estimateGasRequests (log : list Call)
  : list (Context * ethereum.CallMsg) :=
  match log with
  | [] => []
  | CallEstimateGas cx msg :: log' => (cx, msg) :: estimateGasRequests log'
  | _ :: log' => estimateGasRequests log'
  end.

(** The pending-nonce requests of a log, in order. *)
Fixpoint pendingNonceRequests (log : list Call)
  : list (Context * common.Address) :=
  match log with
  | [] => []
  | CallPendingNonceAt cx account :: log' =>
    (cx, account) :: pendingNonceRequests log'
  | _ :: log' => pendingNonceRequests log'
  end.

(** The tip cap after the block "Estimate TipCap" of [createBlobTx]: the
    override of the intent, else the client's suggestion. *)
Definition resolvedTipCap (c : EthClient) (opts : bind.TransactOpts)
  : Z + failure :=
  match bind.GasTipCap opts with
  | Some tip => inl tip
  | None => SuggestGasTipCap c (bind.Context_ opts)
  end.

(** The fee cap after the block "Estimate FeeCap" of [createBlobTx], for the
    fetched header and the resolved tip cap; there is none when the header
    has no base fee to compute it from. *)
Definition resolvedFeeCap (opts : bind.TransactOpts) (header : types.Header)
    (gasTipCap : Z) : option Z :=
  match bind.GasFeeCap opts with
  | Some fee => Some fee
  | None =>
    match types.BaseFee header with
    | Some baseFee => Some (gasTipCap + baseFee * 2)
    | None => None
    end
  end.

(** The message of the fee-ordering error of [createBlobTx]. *)
Definition feeOrderingMessage (gasFeeCap gasTipCap : Z) : string :=
  "maxFeePerGas (" ++ fmt_v gasFeeCap ++
  ") < maxPriorityFeePerGas (" ++ fmt_v gasTipCap ++ ")".


(** Whether an error is the fee-ordering error of this file. *)
Definition InvalidFeeOrdering (e : error) : bool :=
  match e with
  | errorString msg => String.prefix "maxFeePerGas (" msg
  | foreign _ => false
  end.

(** The context a request was issued with. *)
Definition requestContext (request : Call) : Context :=
  match request with
  | CallHeaderByNumber cx _ => cx
  | CallSuggestGasTipCap cx => cx
  | CallEstimateGas cx _ => cx
  | CallPendingNonceAt cx _ => cx
  | CallChainID cx => cx
  | CallSendTransaction cx _ => cx
  end.

(** The failure, if any, with which client [c] answers a request. *)
Definition refusal (c : EthClient) (request : Call) : option failure :=
  match request with
  | CallHeaderByNumber cx number =>
    match HeaderByNumber c cx number with inl _ => None | inr err => Some err end
  | CallSuggestGasTipCap cx =>
    match SuggestGasTipCap c cx with inl _ => None | inr err => Some err end
  | CallEstimateGas cx msg =>
    match EstimateGas c cx msg with inl _ => None | inr err => Some err end
  | CallPendingNonceAt cx account =>
    match PendingNonceAt c cx account with inl _ => None | inr err => Some err end
  | CallChainID cx =>
    match ChainID c cx with inl _ => None | inr err => Some err end
  | CallSendTransaction cx tx => SendTransaction c cx tx
  end.

(** Whether a list of numbers increases strictly. *)
Fixpoint increasing (l : list nat) : bool :=
  match l with
  | [] => true
  | x :: l' =>
    match l' with
    | [] => true
    | y :: _ => (x <? y)%nat && increasing l'
    end
  end.

(** Intent [opts], with the value to transfer replaced. *)
Definition withValue (opts : bind.TransactOpts) (value : option Z)
  : bind.TransactOpts :=
  {| bind.From := bind.From opts;
     bind.Nonce := bind.Nonce opts;
     bind.Signer := bind.Signer opts;
     bind.Value := value;
     bind.GasPrice := bind.GasPrice opts;
     bind.GasFeeCap := bind.GasFeeCap opts;
     bind.GasTipCap := bind.GasTipCap opts;
     bind.GasLimit := bind.GasLimit opts;
     bind.Context_ := bind.Context_ opts;
     bind.NoSend := bind.NoSend opts |}.

(** Client [c], with the answer to the chain-id request replaced. *)
Definition withChainID (c : EthClient) (answer : Z + failure) : EthClient :=
  {| HeaderByNumber := HeaderByNumber c;
     SuggestGasTipCap := SuggestGasTipCap c;
     EstimateGas := EstimateGas c;
     PendingNonceAt := PendingNonceAt c;
     ChainID := fun _ => answer;
     SendTransaction := SendTransaction c |}.

End rpc.

(** ** Test doubles

    A protocol instance and a chain client with fixed answers, used to run the
    engine on concrete intents. *)
Module fake.
Import Go rpc.

(** [fakeExponential] of eip4844, the loop bounded by [fuel] rounds. *)
Fixpoint fakeExponentialLoop (fuel : nat) (i output accum numerator
    denominator : Z) : Z :=
  match fuel with
  | O => output
  | Datatypes.S fuel' =>
    if 0 <? accum then
      fakeExponentialLoop fuel' (i + 1) (output + accum)
        (accum * numerator / denominator / i) numerator denominator
    else output
  end.

Definition fakeExponential (factor numerator denominator : Z) : Z :=
  fakeExponentialLoop 64 1 0 (factor * denominator) numerator denominator
  / denominator.

(** [eip4844.CalcBlobFee], with the minimum blob gas price 1 and the update
    fraction 3338477. *)
Definition calcBlobFee (excessBlobGas : Z) : Z :=
  fakeExponential 1 excessBlobGas 3338477.

Lemma fakeExponentialLoop_nonneg fuel :
  forall i output accum numerator denominator,
    0 <= output ->
    0 <= fakeExponentialLoop fuel i output accum numerator denominator.
Proof.
  induction fuel as [|fuel IH]; intros i output accum numerator denominator Hout.
  - exact Hout.
  - simpl. destruct (0 <? accum) eqn:Hacc.
    + apply IH. apply Z.ltb_lt in Hacc. lia.
    + exact Hout.
Qed.

Lemma calcBlobFee_nonneg excessBlobGas : 0 <= calcBlobFee excessBlobGas.
Proof.
  unfold calcBlobFee, fakeExponential.
  apply Z.div_pos; [apply fakeExponentialLoop_nonneg|]; lia.
Qed.

(** A stand-in commitment scheme: the commitment is the first 48 bytes of
    the blob, the proof is the commitment reversed, and the versioned hash
    is the version byte 1 followed by the first 31 bytes of the
    commitment. *)
Definition protocol : Protocol := {|
  BlobToCommitment := fun blob => inl (firstn 48 blob);
  ComputeBlobProof := fun _ commitment => inl (rev commitment);
  CalcBlobHashV1 := fun commitment => x01 :: firstn 31 commitment;
  CalcBlobFee := calcBlobFee;
  CalcBlobFee_nonneg := calcBlobFee_nonneg
|}.

Definition header : types.Header :=
  {| types.BaseFee := Some 7; types.ExcessBlobGas := None |}.

(** A client on chain 167 whose broadcast succeeds. *)
Definition client : EthClient := {|
  HeaderByNumber := fun _ _ => inl header;
  SuggestGasTipCap := fun _ => inl 3;
  EstimateGas := fun _ _ => inl 21000;
  PendingNonceAt := fun _ _ => inl 9;
  ChainID := fun _ => inl 167;
  SendTransaction := fun _ _ => None
|}.

(** The same client, with a broadcast that is refused. *)
Definition clientSendFails : EthClient := {|
  HeaderByNumber := HeaderByNumber client;
  SuggestGasTipCap := SuggestGasTipCap client;
  EstimateGas := EstimateGas client;
  PendingNonceAt := PendingNonceAt client;
  ChainID := ChainID client;
  SendTransaction := fun _ _ => Some "nonce too low"%string
|}.

(** A client that is offline: every request is refused. *)
Definition clientOffline : EthClient := {|
  HeaderByNumber := fun _ _ => inr "connection refused"%string;
  SuggestGasTipCap := fun _ => inr "connection refused"%string;
  EstimateGas := fun _ _ => inr "connection refused"%string;
  PendingNonceAt := fun _ _ => inr "connection refused"%string;
  ChainID := fun _ => inr "connection refused"%string;
  SendTransaction := fun _ _ => Some "connection refused"%string
|}.

(** The test client, with a pending-nonce request that is refused. *)
Definition clientNonceFails : EthClient := {|
  HeaderByNumber := HeaderByNumber client;
  SuggestGasTipCap := SuggestGasTipCap client;
  EstimateGas := EstimateGas client;
  PendingNonceAt := fun _ _ => inr "unknown account"%string;
  ChainID := ChainID client;
  SendTransaction := SendTransaction client
|}.

(** The test client on a chain whose headers have no base fee. *)
Definition clientNoBaseFee : EthClient := {|
  HeaderByNumber := fun _ _ =>
    inl {| types.BaseFee := None; types.ExcessBlobGas := None |};
  SuggestGasTipCap := SuggestGasTipCap client;
  EstimateGas := EstimateGas client;
  PendingNonceAt := PendingNonceAt client;
  ChainID := ChainID client;
  SendTransaction := SendTransaction client
|}.

Definition sender : common.Address := repeat x11 20.
Definition taikoL1 : common.Address := repeat x22 20.

(** A signer that fills in a fixed signature. *)
Definition signer : bind.SignerFn := fun _ tx =>
  match tx with
  | None => inr "nil transaction"%string
  | Some (types.NewTx b) =>
    inl (types.NewTx
      {| types.ChainID := types.ChainID b;
         types.Nonce := types.Nonce b;
         types.GasTipCap := types.GasTipCap b;
         types.GasFeeCap := types.GasFeeCap b;
         types.Gas := types.Gas b;
         types.To := types.To b;
         types.Value := types.Value b;
         types.Data := types.Data b;
         types.AccessList := types.AccessList b;
         types.BlobFeeCap := types.BlobFeeCap b;
         types.BlobHashes_ := types.BlobHashes_ b;
         types.Sidecar := types.Sidecar b;
         types.V := Some 1;
         types.R := Some 2;
         types.S := Some 3 |})
  end.

(** An intent of [sender], with the given overrides. *)
Definition intent (nonce gasTipCap gasFeeCap : option Z) (gasLimit : Z)
    (signer : option bind.SignerFn) : bind.TransactOpts := {|
  bind.From := sender;
  bind.Nonce := nonce;
  bind.Signer := signer;
  bind.Value := None;
  bind.GasPrice := None;
  bind.GasFeeCap := gasFeeCap;
  bind.GasTipCap := gasTipCap;
  bind.GasLimit := gasLimit;
  bind.Context_ := ctx 0;
  bind.NoSend := false
|}.

(** An intent without overrides. *)
Definition opts : bind.TransactOpts := intent None None None 0 (Some signer).

(** The intent without overrides, to be signed and not sent. *)
Definition signOnly : bind.TransactOpts := {|
  bind.From := sender;
  bind.Nonce := None;
  bind.Signer := Some signer;
  bind.Value := None;
  bind.GasPrice := None;
  bind.GasFeeCap := None;
  bind.GasTipCap := None;
  bind.GasLimit := 0;
  bind.Context_ := ctx 0;
  bind.NoSend := true
|}.

Definition payload : list byte := [x01; x02; x03].

End fake.

(** * Properties of the construction engine *)

Import Go rpc.

(** ** Byte slices and strings *)

Lemma len_repeat {A : Type} (x : A) (n : Z) :
  0 <= n -> len (repeat x (Z.to_nat n)) = n.
Proof.
  intros Hn. unfold len. rewrite repeat_length. apply Z2Nat.id, Hn.
Qed.

Lemma skipn_repeat {A : Type} (x : A) (n : nat) :
  forall m, skipn n (repeat x m) = repeat x (m - n).
Proof.
  induction n as [|n IH]; intros [|m]; try reflexivity.
  apply (IH m).
Qed.

Lemma copy_into_zeroBlob (data : list byte) :
  (List.length data <= kzg4844.BlobLen)%nat ->
  copy kzg4844.zeroBlob data =
  data ++ repeat x00 (kzg4844.BlobLen - List.length data).
Proof.
  intros Hle. unfold copy, kzg4844.zeroBlob.
  rewrite repeat_length, (Nat.min_r _ _ Hle), firstn_all, skipn_repeat.
  reflexivity.
Qed.

Lemma copy_length {A : Type} (dst src : list A) :
  List.length (copy dst src) = List.length dst.
Proof.
  unfold copy. rewrite length_app, length_firstn, length_skipn. lia.
Qed.

Lemma prefix_append (sub rest : string) :
  String.prefix sub (sub ++ rest) = true.
Proof.
  induction sub as [|a sub IH]; simpl.
  - destruct rest; reflexivity.
  - destruct (Ascii.ascii_dec a a) as [_|Hne]; [exact IH | now elim Hne].
Qed.

Lemma Contains_unfold (s sub : string) :
  Contains s sub =
  if String.prefix sub s then true
  else match s with
       | EmptyString => false
       | String _ s' => Contains s' sub
       end.
Proof. destruct s; reflexivity. Qed.

Lemma Contains_append (before sub rest : string) :
  Contains (before ++ sub ++ rest) sub = true.
Proof.
  induction before as [|a before IH]; rewrite Contains_unfold.
  - change (EmptyString ++ sub ++ rest)%string with (sub ++ rest)%string.
    now rewrite prefix_append.
  - change (String a before ++ sub ++ rest)%string
      with (String a (before ++ sub ++ rest)).
    destruct (String.prefix sub _); [reflexivity | exact IH].
Qed.

Section Engine.
Context {P : Protocol}.

(** ** Running createBlobTx path by path *)

Ltac scrutinee x :=
  match goal with
  | |- context [match x with _ => _ end] => idtac
  end.

Ltac case_on x := scrutinee x; destruct x eqn:?.

Ltac reduce :=
  cbv beta iota zeta delta [bind ret request panic app fst snd calls result].

Ltac step :=
  match goal with
  | |- context [HeaderByNumber ?c ?cx ?n] => case_on (HeaderByNumber c cx n)
  | |- context [bind.GasTipCap ?o] => case_on (bind.GasTipCap o)
  | |- context [SuggestGasTipCap ?c ?cx] => case_on (SuggestGasTipCap c cx)
  | |- context [bind.GasFeeCap ?o] => case_on (bind.GasFeeCap o)
  | |- context [types.BaseFee ?h] => case_on (types.BaseFee h)
  | |- context [?a <? ?b] => case_on (a <? b)
  | |- context [?a =? ?b] => case_on (a =? b)
  | |- context [EstimateGas ?c ?cx ?m] => case_on (EstimateGas c cx m)
  | |- context [bind.Nonce ?o] => case_on (bind.Nonce o)
  | |- context [PendingNonceAt ?c ?cx ?a] => case_on (PendingNonceAt c cx a)
  | |- context [ChainID ?c ?cx] => case_on (ChainID c cx)
  | |- context [MakeSidecarWithSingleBlob ?d] =>
      scrutinee (MakeSidecarWithSingleBlob d);
      destruct (MakeSidecarWithSingleBlob d) as [[?|] [?|]] eqn:?
  | |- context [uint256.MustFromBig ?b] => case_on (uint256.MustFromBig b)
  end; reduce.

Ltac run_createBlobTx :=
  unfold createBlobTx, must, getNonce; reduce; repeat step.

Ltac tidy :=
  try congruence;
  repeat match goal with
  | H : Some _ = None |- _ => discriminate H
  | H : None = Some _ |- _ => discriminate H
  | H : inl _ = inr _ |- _ => discriminate H
  | H : inr _ = inl _ |- _ => discriminate H
  | H : Done _ = Panic |- _ => discriminate H
  | H : Panic = Done _ |- _ => discriminate H
  | H : inl _ = inl _ |- _ => injection H as H
  | H : Some _ = Some _ |- _ => injection H as H
  | H : Done _ = Done _ |- _ => injection H as H
  | H : (_, _) = (_, _) |- _ => injection H as ? ?
  | H : _ :: _ = _ :: _ |- _ => injection H as ? ?
  | H : (_ <? _) = true |- _ => apply Z.ltb_lt in H
  | H : (_ <? _) = false |- _ => apply Z.ltb_ge in H
  | H : (_ =? _) = true |- _ => apply Z.eqb_eq in H
  | H : (_ =? _) = false |- _ => apply Z.eqb_neq in H
  | H : ?x = _ |- _ => is_var x; subst x
  | H : _ = ?x |- _ => is_var x; subst x
  end.

(** ** The client as a record of answers *)

Lemma createBlobTx_methods
    (c : EthClient) (opts : bind.TransactOpts)
    (contract : option common.Address) (input blobData : list byte) :
  let log := calls (createBlobTx c opts contract input blobData) in
  NoDup (map method log) /\ ~ In 5%nat (map method log).
Proof.
  intros log. subst log.
  destruct (createBlobTx c opts contract input blobData) as [log out] eqn:Hrun.
  cbn [calls fst]. revert Hrun. unfold createBlobTx.
  run_createBlobTx; intros Hrun; tidy; cbn [map method];
    (split; [repeat constructor; cbn [In]; intuition discriminate
            |cbn [In]; intuition discriminate]).
Qed.

(** No call of [TransactBlobTx] addresses a method of the client twice, which
    is why a client is modelled by one answer per method and arguments. *)
Lemma TransactBlobTx_each_method_at_most_once
    (c : EthClient) (opts : bind.TransactOpts)
    (contract : option common.Address) (input blobData : list byte) :
  NoDup (map method (calls (TransactBlobTx c opts contract input blobData))).
Proof.
  destruct (createBlobTx_methods c opts contract input blobData)
    as [Hnodup Hsend].
  unfold TransactBlobTx. destruct (bind.Signer opts) as [signer|];
    [|constructor].
  destruct (createBlobTx c opts contract input blobData) as [log [[rawTx err]|]];
    cbn [calls fst] in Hnodup, Hsend; cbn [bind calls fst];
    [|exact Hnodup].
  assert (Hlast : NoDup (map method log ++ [5%nat])).
  { apply NoDup_app; [exact Hnodup | |].
    - repeat constructor. intros [].
    - intros k Hk [<-|[]]. exact (Hsend Hk). }
  destruct err as [err|]; cbn [ret calls fst]; rewrite ?app_nil_r;
    [exact Hnodup|].
  destruct (signer (bind.From opts) rawTx) as [signedTx|err];
    cbn [ret calls fst]; rewrite ?app_nil_r; [|exact Hnodup].
  destruct (bind.NoSend opts); cbn [ret calls fst]; rewrite ?app_nil_r;
    [exact Hnodup|].
  cbn [request bind].
  destruct (SendTransaction c (bind.Context_ opts) signedTx);
    cbn [ret calls fst app]; rewrite ?app_nil_r, map_app; exact Hlast.
Qed.

(** ** Signer/Submitter *)

(** C4. An intent without a signing capability is refused with the
    no-signer error before createBlobTx is entered: the request log is
    empty, so no header fetch, tip suggestion, gas estimate, nonce fetch,
    chain-id fetch or broadcast has been issued. *)
Theorem no_signer_fails_before_any_request
    (c : EthClient) (opts : bind.TransactOpts)
    (contract : option common.Address) (input blobData : list byte) :
  bind.Signer opts = None ->
  TransactBlobTx c opts contract input blobData =
  ([], Done (None, Some (errorString
               "no signer to authorize the transaction with"))).
Proof.
  intros Hsigner. unfold TransactBlobTx. rewrite Hsigner. reflexivity.
Qed.

(** C1, as the code has it. When signing succeeds and the broadcast is
    refused, TransactBlobTx hands back the submission error and no
    transaction: the signed transaction is dropped. The broadcast is the
    last request of the call. *)
Theorem submission_failure_returns_only_the_error
    (c : EthClient) (opts : bind.TransactOpts)
    (contract : option common.Address) (input blobData : list byte)
    (signer : bind.SignerFn) (log : list Call)
    (rawTx : option types.Transaction) (signedTx : types.Transaction)
    (err : failure) :
  bind.Signer opts = Some signer ->
  createBlobTx c opts contract input blobData = (log, Done (rawTx, None)) ->
  signer (bind.From opts) rawTx = inl signedTx ->
  bind.NoSend opts = false ->
  SendTransaction c (bind.Context_ opts) signedTx = Some err ->
  TransactBlobTx c opts contract input blobData =
  (log ++ [CallSendTransaction (bind.Context_ opts) signedTx],
   Done (None, Some (foreign err))).
Proof.
  intros Hsigner Hraw Hsign Hsend Hfail. unfold TransactBlobTx.
  rewrite Hsigner, Hraw. cbn [bind]. rewrite Hsign, Hsend.
  unfold request. rewrite Hfail. reflexivity.
Qed.

(** ** Sidecar Builder *)

(** C2, as the code has it. Every payload longer than the blob capacity is
    refused with one fixed message, which names the 128k limit and does not
    depend on the payload. *)
Theorem payload_too_large_fixed_message (data : list byte) :
  BlobBytes < len data ->
  MakeSidecarWithSingleBlob data =
  (None, Some (errorString "data is bigger than 128k"))
  /\ Contains "data is bigger than 128k" "128k" = true.
Proof.
  intros Hlen. split; [|reflexivity].
  unfold MakeSidecarWithSingleBlob.
  destruct (len data >? BlobBytes) eqn:Hcmp; [reflexivity|].
  rewrite Z.gtb_ltb in Hcmp. apply Z.ltb_ge in Hcmp. lia.
Qed.

(** C5. For a payload of at most [BlobBytes] bytes whose commitment and
    proof computations succeed, the builder returns a sidecar with exactly
    one blob, the payload followed by zero bytes up to the blob size, the
    one commitment computed over that blob and the one proof computed from
    that blob and that commitment. *)
Theorem sidecar_single_zero_padded_blob
    (data : list byte) (commitment : kzg4844.Commitment)
    (proof : kzg4844.Proof) :
  0 <= len data <= BlobBytes ->
  let blob := data ++ repeat x00 (kzg4844.BlobLen - List.length data) in
  BlobToCommitment blob = inl commitment ->
  ComputeBlobProof blob commitment = inl proof ->
  MakeSidecarWithSingleBlob data =
  (Some {| types.Blobs := [blob];
           types.Commitments := [commitment];
           types.Proofs := [proof] |}, None)
  /\ List.length blob = kzg4844.BlobLen
  /\ firstn (List.length data) blob = data
  /\ skipn (List.length data) blob =
     repeat x00 (kzg4844.BlobLen - List.length data).
Proof.
  intros [_ Hlen] blob Hcommit Hproof.
  assert (Hnat : (List.length data <= kzg4844.BlobLen)%nat).
  { unfold len, BlobBytes in Hlen. unfold kzg4844.BlobLen. lia. }
  split; [|split; [|split]].
  - unfold MakeSidecarWithSingleBlob.
    destruct (len data >? BlobBytes) eqn:Hcmp.
    + rewrite Z.gtb_ltb in Hcmp. apply Z.ltb_lt in Hcmp. lia.
    + rewrite (copy_into_zeroBlob data Hnat). fold blob.
      rewrite Hcommit, Hproof. reflexivity.
  - subst blob. rewrite length_app, repeat_length. lia.
  - subst blob. rewrite firstn_app, firstn_all, Nat.sub_diag, firstn_O.
    apply app_nil_r.
  - subst blob. rewrite skipn_app, skipn_all, Nat.sub_diag. reflexivity.
Qed.

Lemma MustFromBig_Some (b z : Z) :
  uint256.MustFromBig b = Some z ->
  z = b mod 2 ^ 256 /\ Z.abs b < 2 ^ 256.
Proof.
  unfold uint256.MustFromBig, uint256.SetFromBig, uint256.modulus.
  destruct (2 ^ 256 <=? Z.abs b) eqn:Hov; [discriminate|].
  intros [= <-]. apply Z.leb_gt in Hov. split; [reflexivity | exact Hov].
Qed.

Lemma MustFromBig_nonneg (b z : Z) :
  0 <= b -> uint256.MustFromBig b = Some z -> z = b.
Proof.
  intros Hb Hz. apply MustFromBig_Some in Hz as [-> Hlt].
  apply Z.mod_small. lia.
Qed.

Lemma MakeSidecarWithSingleBlob_error data o e :
  MakeSidecarWithSingleBlob data = (o, Some e) -> InvalidFeeOrdering e = false.
Proof.
  unfold MakeSidecarWithSingleBlob.
  destruct (len data >? BlobBytes); [intros [= _ <-]; reflexivity|].
  destruct (BlobToCommitment _); [|intros [= _ <-]; reflexivity].
  destruct (ComputeBlobProof _ _); [discriminate | intros [= _ <-]; reflexivity].
Qed.

Lemma string_append_assoc (a b c : string) :
  ((a ++ b) ++ c = a ++ b ++ c)%string.
Proof.
  induction a as [|x a IH]; [reflexivity|].
  cbn [String.append]. now rewrite IH.
Qed.

Lemma feeOrderingMessage_states_both (fee tip : Z) :
  Contains (feeOrderingMessage fee tip) (fmt_v fee) = true
  /\ Contains (feeOrderingMessage fee tip) (fmt_v tip) = true.
Proof.
  unfold feeOrderingMessage. split.
  - apply Contains_append.
  - rewrite <- (string_append_assoc (fmt_v fee)).
    rewrite <- (string_append_assoc "maxFeePerGas (").
    apply Contains_append.
Qed.

Lemma InvalidFeeOrdering_feeOrderingMessage (fee tip : Z) :
  InvalidFeeOrdering (errorString (feeOrderingMessage fee tip)) = true.
Proof. apply prefix_append. Qed.

(** ** Fee Parameter Resolver *)

(** C3, as the code has it. With the header fetched and the tip cap and
    fee cap resolved, createBlobTx fails with the fee-ordering error exactly
    when the fee cap is below the tip cap; the message of that error shows
    both values; and a construction that succeeds has the resolved tip cap
    at most the resolved fee cap, which for a non-negative tip cap are the
    values stored in the assembled transaction, so that the order holds
    there too. *)
Theorem fee_ordering_enforced
    (c : EthClient) (opts : bind.TransactOpts)
    (contract : option common.Address) (input blobData : list byte)
    (header : types.Header) (tip fee : Z) :
  HeaderByNumber c (bind.Context_ opts) None = inl header ->
  resolvedTipCap c opts = inl tip ->
  resolvedFeeCap opts header tip = Some fee ->
  let run := createBlobTx c opts contract input blobData in
  (fee < tip <->
   exists r e, result run = Done (r, Some e) /\ InvalidFeeOrdering e = true)
  /\ (fee < tip ->
      result run =
      Done (None, Some (errorString (feeOrderingMessage fee tip))))
  /\ Contains (feeOrderingMessage fee tip) (fmt_v fee) = true
  /\ Contains (feeOrderingMessage fee tip) (fmt_v tip) = true
  /\ (forall tx, result run = Done (Some tx, None) ->
        tip <= fee
        /\ (0 <= tip ->
            types.GasTipCap (types.inner tx) = tip
            /\ types.GasFeeCap (types.inner tx) = fee
            /\ types.GasTipCap (types.inner tx)
               <= types.GasFeeCap (types.inner tx))).
Proof.
  intros Hheader Htip Hfee run.
  assert (Hrun : fee < tip /\
                 result run =
                 Done (None, Some (errorString (feeOrderingMessage fee tip)))
              \/ tip <= fee /\
                 (forall r e, result run = Done (r, Some e) ->
                     InvalidFeeOrdering e = false) /\
                 (forall tx, result run = Done (Some tx, None) ->
                     uint256.MustFromBig tip =
                       Some (types.GasTipCap (types.inner tx))
                     /\ uint256.MustFromBig fee =
                       Some (types.GasFeeCap (types.inner tx)))).
  { subst run. revert Htip Hfee. unfold resolvedTipCap, resolvedFeeCap.
    destruct (createBlobTx c opts contract input blobData) as [log out] eqn:Hrun.
    revert Hrun. unfold createBlobTx. rewrite Hheader.
    run_createBlobTx; intros; tidy; cbn [result snd];
      try (left; split; [lia | reflexivity]);
      (right; split; [lia|]; split; intros; tidy;
       cbn [types.inner types.GasTipCap types.GasFeeCap InvalidFeeOrdering];
       eauto using MakeSidecarWithSingleBlob_error). }
  split; [|split; [|split; [|split]]].
  - split.
    + intros Hlt. destruct Hrun as [[_ Hout]|[Hle _]]; [|lia].
      eauto using InvalidFeeOrdering_feeOrderingMessage.
    + intros (r & e & Hout & Hkind).
      destruct Hrun as [[Hlt _]|(_ & Hother & _)]; [exact Hlt|].
      rewrite (Hother r e Hout) in Hkind. discriminate.
  - intros Hlt. destruct Hrun as [[_ Hout]|[Hle _]]; [exact Hout | lia].
  - apply feeOrderingMessage_states_both.
  - apply feeOrderingMessage_states_both.
  - intros tx Hout. destruct Hrun as [[_ Hfail]|(Hle & _ & Hok)].
    + rewrite Hfail in Hout. discriminate.
    + split; [exact Hle|]. intros Hpos.
      destruct (Hok tx Hout) as [Ht Hf].
      apply MustFromBig_nonneg in Ht; [|lia].
      apply MustFromBig_nonneg in Hf; [|lia]. lia.
Qed.


(** ** Nonce Resolver *)

Lemma Uint64_small (x : Z) : 0 <= x < 2 ^ 64 -> Uint64 x = x.
Proof.
  intros Hx. unfold Uint64. rewrite Z.abs_eq by lia. apply Z.mod_small, Hx.
Qed.

Lemma Uint64_nonneg (x : Z) : 0 <= x -> Uint64 x = x mod 2 ^ 64.
Proof. intros Hx. unfold Uint64. now rewrite Z.abs_eq. Qed.

(** C7, as the code has it. An explicit nonce is never looked up on the
    chain, and the assembled transaction carries its conversion to uint64:
    the nonce itself when it lies in 0 .. 2^64-1, the low 64 bits of its
    magnitude otherwise. Without an explicit nonce, a construction that
    succeeds has asked the client once for the pending nonce of the sending
    account and carries the answer. *)
Theorem nonce_explicit_or_pending
    (c : EthClient) (opts : bind.TransactOpts)
    (contract : option common.Address) (input blobData : list byte) :
  let run := createBlobTx c opts contract input blobData in
  (forall n, bind.Nonce opts = Some n ->
     pendingNonceRequests (calls run) = []
     /\ forall tx, result run = Done (Some tx, None) ->
          types.Nonce (types.inner tx) = Uint64 n
          /\ (0 <= n < 2 ^ 64 -> types.Nonce (types.inner tx) = n))
  /\ (bind.Nonce opts = None ->
      forall tx, result run = Done (Some tx, None) ->
        pendingNonceRequests (calls run) =
        [(bind.Context_ opts, bind.From opts)]
        /\ PendingNonceAt c (bind.Context_ opts) (bind.From opts) =
           inl (types.Nonce (types.inner tx))).
Proof.
  intros run. subst run.
  destruct (createBlobTx c opts contract input blobData) as [log out] eqn:Hrun.
  cbn [calls result fst snd]. revert Hrun. unfold createBlobTx.
  run_createBlobTx; intros Hrun; tidy; split.
  all: try (intros n Hn; tidy; (split; [reflexivity|]);
            intros tx Hout; tidy; cbn [types.inner types.Nonce];
            (split; [reflexivity|]); apply Uint64_small).
  all: intros Hnone tx Hout; tidy; cbn [types.inner types.Nonce];
    split; reflexivity.
Qed.

(** ** Transaction Assembler *)

(** C8. Past the fee check, a non-zero gas limit of the intent is the gas
    limit of the assembled transaction and no estimate is requested; with
    gas limit 0, exactly one estimate is requested, for the message made of
    the intent's sender and recipient, the resolved tip cap and fee cap and
    the input bytes (no gas price, no value), and its answer is the gas limit
    of the assembled transaction. The blob data has no part in the request:
    any other blob data leaves the estimate requests unchanged. *)
Theorem gas_limit_override_or_estimate
    (c : EthClient) (opts : bind.TransactOpts)
    (contract : option common.Address) (input blobData : list byte)
    (header : types.Header) (tip fee : Z) :
  HeaderByNumber c (bind.Context_ opts) None = inl header ->
  resolvedTipCap c opts = inl tip ->
  resolvedFeeCap opts header tip = Some fee ->
  tip <= fee ->
  let run := createBlobTx c opts contract input blobData in
  let msg := {| ethereum.From := bind.From opts;
                ethereum.To := contract;
                ethereum.GasPrice := None;
                ethereum.GasTipCap := Some tip;
                ethereum.GasFeeCap := Some fee;
                ethereum.Value := None;
                ethereum.Data := input |} in
  (bind.GasLimit opts <> 0 ->
     estimateGasRequests (calls run) = []
     /\ forall tx, result run = Done (Some tx, None) ->
          types.Gas (types.inner tx) = bind.GasLimit opts)
  /\ (bind.GasLimit opts = 0 ->
     estimateGasRequests (calls run) = [(bind.Context_ opts, msg)]
     /\ forall tx, result run = Done (Some tx, None) ->
          EstimateGas c (bind.Context_ opts) msg =
          inl (types.Gas (types.inner tx)))
  /\ (forall blobData',
     estimateGasRequests
       (calls (createBlobTx c opts contract input blobData')) =
     estimateGasRequests (calls run)).
Proof.
  intros Hheader Htip Hfee Hle run msg.
  assert (Hany : forall blob,
    let run := createBlobTx c opts contract input blob in
    (bind.GasLimit opts <> 0 ->
       estimateGasRequests (calls run) = []
       /\ forall tx, result run = Done (Some tx, None) ->
            types.Gas (types.inner tx) = bind.GasLimit opts)
    /\ (bind.GasLimit opts = 0 ->
       estimateGasRequests (calls run) = [(bind.Context_ opts, msg)]
       /\ forall tx, result run = Done (Some tx, None) ->
            EstimateGas c (bind.Context_ opts) msg =
            inl (types.Gas (types.inner tx)))).
  { intros blob run'. subst run' msg. revert Htip Hfee Hle.
    unfold resolvedTipCap, resolvedFeeCap.
    destruct (createBlobTx c opts contract input blob) as [log out] eqn:Hrun.
    cbn [calls result fst snd]. revert Hrun. unfold createBlobTx.
    rewrite Hheader.
    run_createBlobTx; intros; tidy; try lia; split.
    all: intros Hgas; try lia; try (exfalso; apply Hgas; reflexivity);
      (split; [reflexivity|]); intros tx Hout; tidy;
      cbn [types.inner types.Gas]; first [reflexivity | assumption]. }
  cbv zeta in Hany. subst run.
  destruct (Hany blobData) as [Hover Hest].
  split; [exact Hover|]. split; [exact Hest|].
  intros blobData'. destruct (Hany blobData') as [Hover' Hest'].
  destruct (Z.eq_dec (bind.GasLimit opts) 0) as [Hzero|Hnonzero].
  - destruct (Hest Hzero) as [Hreq _]. destruct (Hest' Hzero) as [Hreq' _].
    now rewrite Hreq, Hreq'.
  - destruct (Hover Hnonzero) as [Hreq _].
    destruct (Hover' Hnonzero) as [Hreq' _].
    now rewrite Hreq, Hreq'.
Qed.

(** C9. The blob fee cap of the assembled transaction is the protocol's
    pricing function applied to the fetched header's excess blob gas when the
    header has one, and to the constant 100066 when it has none. *)
Theorem blob_fee_cap_from_excess_blob_gas
    (c : EthClient) (opts : bind.TransactOpts)
    (contract : option common.Address) (input blobData : list byte)
    (header : types.Header) (tx : types.Transaction) :
  HeaderByNumber c (bind.Context_ opts) None = inl header ->
  result (createBlobTx c opts contract input blobData) =
  Done (Some tx, None) ->
  (forall excessBlobGas,
      types.ExcessBlobGas header = Some excessBlobGas ->
      types.BlobFeeCap (types.inner tx) = CalcBlobFee excessBlobGas)
  /\ (types.ExcessBlobGas header = None ->
      types.BlobFeeCap (types.inner tx) = CalcBlobFee 100066).
Proof.
  intros Hheader.
  destruct (createBlobTx c opts contract input blobData) as [log out] eqn:Hrun.
  cbn [result snd]. revert Hrun. unfold createBlobTx. rewrite Hheader.
  run_createBlobTx; intros Hrun Hout; tidy; cbn [types.inner types.BlobFeeCap].
  all: match goal with
       | H : uint256.MustFromBig (CalcBlobFee _) = Some _ |- _ =>
         apply MustFromBig_nonneg in H; [|apply CalcBlobFee_nonneg]; subst
       end.
  all: split; [intros excessBlobGas Hex | intros Hex]; rewrite Hex;
    reflexivity.
Qed.

(** C10. The chain id of the assembled transaction is the fetched chain id
    modulo 2^64, so a fetched id of 2^64 or more is stored as a different
    number; and nothing in the construction rejects it: the call runs exactly
    as it does against a client that answers with the reduced id. *)
Theorem chain_id_truncated_to_64_bits
    (c : EthClient) (opts : bind.TransactOpts)
    (contract : option common.Address) (input blobData : list byte)
    (chainID : Z) :
  0 <= chainID ->
  ChainID c (bind.Context_ opts) = inl chainID ->
  let run := createBlobTx c opts contract input blobData in
  (forall tx, result run = Done (Some tx, None) ->
      types.ChainID (types.inner tx) = chainID mod 2 ^ 64
      /\ (2 ^ 64 <= chainID -> types.ChainID (types.inner tx) <> chainID))
  /\ createBlobTx (withChainID c (inl (chainID mod 2 ^ 64)))
       opts contract input blobData = run.
Proof.
  intros Hpos Hid run. subst run.
  assert (Hmod : Uint64 (chainID mod 2 ^ 64) = Uint64 chainID).
  { rewrite !Uint64_nonneg; [apply Z.mod_mod; lia | lia |].
    apply Z.mod_pos_bound. lia. }
  split.
  - destruct (createBlobTx c opts contract input blobData)
      as [log out] eqn:Hrun.
    cbn [result snd]. revert Hrun. unfold createBlobTx.
    run_createBlobTx; intros Hrun tx Hout; tidy;
      cbn [types.inner types.ChainID]; unfold uint256.NewInt;
      rewrite (Uint64_nonneg _ Hpos);
      (split; [reflexivity|]); intros Hbig;
      pose proof (Z.mod_pos_bound chainID (2 ^ 64)); lia.
  - unfold createBlobTx, getNonce.
    cbn [withChainID HeaderByNumber SuggestGasTipCap EstimateGas
         PendingNonceAt ChainID SendTransaction].
    rewrite Hid.
    run_createBlobTx; rewrite ?Hmod; reflexivity.
Qed.

(** * Further properties of the engine *)

(** ** The requests of a call *)

Lemma TransactBlobTx_calls
    (c : EthClient) (opts : bind.TransactOpts)
    (contract : option common.Address) (input blobData : list byte) :
  let log := calls (createBlobTx c opts contract input blobData) in
  let log' := calls (TransactBlobTx c opts contract input blobData) in
  log' = [] \/ log' = log
  \/ exists signedTx,
       log' = log ++ [CallSendTransaction (bind.Context_ opts) signedTx].
Proof.
  intros log log'. subst log log'. unfold TransactBlobTx.
  destruct (bind.Signer opts) as [signer|]; [|left; reflexivity]. right.
  destruct (createBlobTx c opts contract input blobData)
    as [log [[rawTx [err|]]|]]; cbn [bind ret calls fst];
    rewrite ?app_nil_r; [left; reflexivity | | left; reflexivity].
  destruct (signer (bind.From opts) rawTx) as [signedTx|err];
    cbn [ret calls fst]; rewrite ?app_nil_r; [|left; reflexivity].
  destruct (bind.NoSend opts); cbn [ret calls fst]; rewrite ?app_nil_r;
    [left; reflexivity|].
  right. exists signedTx. cbn [request bind].
  destruct (SendTransaction c (bind.Context_ opts) signedTx);
    cbn [ret calls fst]; rewrite ?app_nil_r; reflexivity.
Qed.

Lemma createBlobTx_order
    (c : EthClient) (opts : bind.TransactOpts)
    (contract : option common.Address) (input blobData : list byte) :
  let log := calls (createBlobTx c opts contract input blobData) in
  increasing (map method log) = true
  /\ increasing (map method log ++ [5%nat]) = true.
Proof.
  intros log. subst log.
  destruct (createBlobTx c opts contract input blobData) as [log out] eqn:Hrun.
  cbn [calls fst]. revert Hrun. unfold createBlobTx.
  run_createBlobTx; intros Hrun; tidy; split; reflexivity.
Qed.

(** X1. The requests of a call of TransactBlobTx reach the client in one
    fixed order: header, tip suggestion, gas estimate, pending nonce, chain
    id, broadcast; a request that is not needed is skipped, none is repeated
    and none is issued out of turn. *)
Theorem requests_follow_the_method_order
    (c : EthClient) (opts : bind.TransactOpts)
    (contract : option common.Address) (input blobData : list byte) :
  increasing
    (map method (calls (TransactBlobTx c opts contract input blobData)))
  = true.
Proof.
  destruct (createBlobTx_order c opts contract input blobData)
    as [Hlog Hsend].
  destruct (TransactBlobTx_calls c opts contract input blobData)
    as [-> | [-> | [signedTx ->]]].
  - reflexivity.
  - exact Hlog.
  - rewrite map_app. exact Hsend.
Qed.

Lemma createBlobTx_contexts
    (c : EthClient) (opts : bind.TransactOpts)
    (contract : option common.Address) (input blobData : list byte) :
  Forall (fun request => requestContext request = bind.Context_ opts)
    (calls (createBlobTx c opts contract input blobData)).
Proof.
  destruct (createBlobTx c opts contract input blobData) as [log out] eqn:Hrun.
  cbn [calls fst]. revert Hrun. unfold createBlobTx.
  run_createBlobTx; intros Hrun; tidy; repeat constructor.
Qed.

(** X2. Every request that TransactBlobTx issues carries the context of the
    intent, opts.Context. *)
Theorem every_request_carries_the_intent_context
    (c : EthClient) (opts : bind.TransactOpts)
    (contract : option common.Address) (input blobData : list byte) :
  Forall (fun request => requestContext request = bind.Context_ opts)
    (calls (TransactBlobTx c opts contract input blobData)).
Proof.
  pose proof (createBlobTx_contexts c opts contract input blobData) as Hlog.
  destruct (TransactBlobTx_calls c opts contract input blobData)
    as [-> | [-> | [signedTx ->]]].
  - constructor.
  - exact Hlog.
  - apply Forall_app. split; [exact Hlog | repeat constructor].
Qed.

Ltac use_answers :=
  repeat match goal with
  | H : HeaderByNumber _ _ _ = _ |- _ => rewrite H
  | H : SuggestGasTipCap _ _ = _ |- _ => rewrite H
  | H : EstimateGas _ _ _ = _ |- _ => rewrite H
  | H : PendingNonceAt _ _ _ = _ |- _ => rewrite H
  | H : ChainID _ _ = _ |- _ => rewrite H
  end.

Ltac use_options :=
  repeat match goal with
  | H : bind.GasTipCap _ = _ |- _ => rewrite H
  | H : bind.GasFeeCap _ = _ |- _ => rewrite H
  | H : types.BaseFee _ = _ |- _ => rewrite H
  | H : SuggestGasTipCap _ _ = _ |- _ => rewrite H
  end.

Lemma createBlobTx_refusals
    (c : EthClient) (opts : bind.TransactOpts)
    (contract : option common.Address) (input blobData : list byte) :
  let run := createBlobTx c opts contract input blobData in
  let final := last (calls run) (CallChainID (bind.Context_ opts)) in
  calls run <> []
  /\ Forall (fun request => refusal c request = None) (removelast (calls run))
  /\ (forall f, refusal c final = Some f ->
                result run = Done (None, Some (foreign f)))
  /\ (forall rawTx, result run = Done (rawTx, None) ->
                    refusal c final = None).
Proof.
  intros run final. subst run final.
  destruct (createBlobTx c opts contract input blobData) as [log out] eqn:Hrun.
  cbn [calls result fst snd]. revert Hrun. unfold createBlobTx.
  run_createBlobTx; intros Hrun; tidy;
    cbv beta iota delta [removelast last refusal]; use_answers; cbv beta iota;
    (split; [discriminate|]);
    (split; [repeat constructor; cbn [refusal]; use_answers; reflexivity|]);
    (split; [intros ? Hf; tidy; reflexivity
            |intros ? Hout; tidy; reflexivity]).
Qed.

(** X3. A call of TransactBlobTx stops at the first request that the client
    refuses: every request before the last one of the call was answered, and
    when the last one is refused the call returns that refusal, unchanged and
    with no transaction. *)
Theorem call_stops_at_the_first_refused_request
    (c : EthClient) (opts : bind.TransactOpts)
    (contract : option common.Address) (input blobData : list byte)
    (earlier : list Call) (final : Call) :
  calls (TransactBlobTx c opts contract input blobData) = earlier ++ [final] ->
  Forall (fun request => refusal c request = None) earlier
  /\ (forall f, refusal c final = Some f ->
        result (TransactBlobTx c opts contract input blobData) =
        Done (None, Some (foreign f))).
Proof.
  destruct (createBlobTx_refusals c opts contract input blobData)
    as (Hne & Hbefore & Hrefused & Hanswered).
  cbv zeta in Hne, Hbefore, Hrefused, Hanswered.
  unfold TransactBlobTx.
  destruct (bind.Signer opts) as [signer|];
    [|intros Hlog; now destruct earlier].
  destruct (createBlobTx c opts contract input blobData)
    as [log out] eqn:Hrun.
  cbn [calls result fst snd] in Hne, Hbefore, Hrefused, Hanswered.
  assert (Hcreate : forall out' : outcome (option types.Transaction * option error),
            log = earlier ++ [final] ->
            (forall rawTx, out <> Done (rawTx, None)) ->
            (forall f, out = Done (None, Some (foreign f)) ->
                       out' = Done (None, Some (foreign f))) ->
            Forall (fun request => refusal c request = None) earlier
            /\ (forall f, refusal c final = Some f ->
                          out' = Done (None, Some (foreign f)))).
  { intros out' -> Hfail Hsame.
    rewrite removelast_last in Hbefore. rewrite last_last in Hrefused.
    split; [exact Hbefore|]. intros f Hf. apply Hsame, Hrefused, Hf. }
  assert (Hall : forall rawTx, out = Done (rawTx, None) ->
            Forall (fun request => refusal c request = None) log).
  { intros rawTx Hout. specialize (Hanswered rawTx Hout).
    destruct (exists_last Hne) as (l & r & ->).
    rewrite removelast_last in Hbefore. rewrite last_last in Hanswered.
    apply Forall_app. split; [exact Hbefore | repeat constructor; exact Hanswered]. }
  destruct out as [[rawTx [err|]]|]; cbn [bind ret calls result fst snd];
    rewrite ?app_nil_r.
  - intros Hlog. apply Hcreate; [exact Hlog | discriminate|].
    intros f [= _ ->]. reflexivity.
  - specialize (Hall rawTx eq_refl).
    destruct (signer (bind.From opts) rawTx) as [signedTx|err].
    + destruct (bind.NoSend opts); cbn [ret request bind calls result fst snd].
      * rewrite app_nil_r. intros Hlog. rewrite Hlog in Hall.
        apply Forall_app in Hall as [Hl Hr]. split; [exact Hl|].
        intros f Hf. inversion Hr as [|? ? Hfinal _]; subst. congruence.
      * destruct (SendTransaction c (bind.Context_ opts) signedTx) as [err|]
          eqn:Hsend; cbn [ret calls result fst snd]; rewrite app_nil_r;
          intros Hlog; apply app_inj_tail in Hlog as [<- <-];
          (split; [exact Hall|]); cbn [refusal]; rewrite Hsend;
          intros f Hf; congruence.
    + cbn [ret calls result fst snd]. rewrite app_nil_r. intros Hlog.
      rewrite Hlog in Hall. apply Forall_app in Hall as [Hl Hr].
      split; [exact Hl|].
      intros f Hf. inversion Hr as [|? ? Hfinal _]; subst. congruence.
  - intros Hlog. apply Hcreate; [exact Hlog | discriminate | discriminate].
Qed.

(** X4. When the resolved fee cap is below the resolved tip cap, the call
    ends at the fee check: the header request, and the tip suggestion when
    the intent has no tip cap, are all it has issued; no gas estimate, nonce
    or chain id is requested. *)
Theorem fee_check_precedes_the_remaining_requests
    (c : EthClient) (opts : bind.TransactOpts)
    (contract : option common.Address) (input blobData : list byte)
    (header : types.Header) (tip fee : Z) :
  HeaderByNumber c (bind.Context_ opts) None = inl header ->
  resolvedTipCap c opts = inl tip ->
  resolvedFeeCap opts header tip = Some fee ->
  fee < tip ->
  calls (createBlobTx c opts contract input blobData) =
  CallHeaderByNumber (bind.Context_ opts) None ::
  match bind.GasTipCap opts with
  | Some _ => []
  | None => [CallSuggestGasTipCap (bind.Context_ opts)]
  end.
Proof.
  intros Hheader Htip Hfee Hlt. revert Htip Hfee.
  unfold resolvedTipCap, resolvedFeeCap.
  destruct (createBlobTx c opts contract input blobData) as [log out] eqn:Hrun.
  cbn [calls fst]. revert Hrun. unfold createBlobTx. rewrite Hheader.
  run_createBlobTx; intros; tidy; first [reflexivity | lia].
Qed.

Lemma createBlobTx_result_shape
    (c : EthClient) (opts : bind.TransactOpts)
    (contract : option common.Address) (input blobData : list byte)
    (tx : option types.Transaction) (err : option error) :
  result (createBlobTx c opts contract input blobData) = Done (tx, err) ->
  (tx = None <-> err <> None).
Proof.
  destruct (createBlobTx c opts contract input blobData) as [log out] eqn:Hrun.
  cbn [result snd]. revert Hrun. unfold createBlobTx.
  run_createBlobTx; intros Hrun Hout; tidy;
    (split; [intros _; discriminate | congruence])
    || (split; [discriminate | intros Hne; now elim Hne]).
Qed.

(** X5. createBlobTx returns exactly one of a transaction and an error,
    never both and never neither. TransactBlobTx never returns a transaction
    together with an error: whenever it returns an error, the transaction
    next to it is nil. *)
Theorem no_transaction_comes_with_an_error
    (c : EthClient) (opts : bind.TransactOpts)
    (contract : option common.Address) (input blobData : list byte)
    (tx : option types.Transaction) (err : option error) :
  (result (createBlobTx c opts contract input blobData) = Done (tx, err) ->
   (tx = None <-> err <> None))
  /\ (result (TransactBlobTx c opts contract input blobData) = Done (tx, err) ->
      err <> None -> tx = None).
Proof.
  split; [apply createBlobTx_result_shape|].
  unfold TransactBlobTx.
  destruct (bind.Signer opts) as [signer|]; cbn [ret result snd].
  - destruct (createBlobTx c opts contract input blobData)
      as [log [[rawTx [e|]]|]]; cbn [bind ret result snd].
    + intros [= <- <-] _. reflexivity.
    + destruct (signer (bind.From opts) rawTx) as [signedTx|e];
        [|cbn [ret result snd]; intros [= <- <-] _; reflexivity].
      destruct (bind.NoSend opts); cbn [ret request bind result snd].
      * intros [= <- <-] Hne. now elim Hne.
      * destruct (SendTransaction c (bind.Context_ opts) signedTx);
          cbn [ret result snd]; intros [= <- <-] Hne;
          [reflexivity | now elim Hne].
    + discriminate.
  - intros [= <- <-] _. reflexivity.
Qed.

Lemma createBlobTx_never_broadcasts
    (c : EthClient) (opts : bind.TransactOpts)
    (contract : option common.Address) (input blobData : list byte)
    (cx : Context) (tx : types.Transaction) :
  ~ In (CallSendTransaction cx tx)
       (calls (createBlobTx c opts contract input blobData)).
Proof.
  intros Hin.
  destruct (createBlobTx_methods c opts contract input blobData) as [_ Hsend].
  apply Hsend. exact (in_map method _ _ Hin).
Qed.

(** X6. The only transaction that TransactBlobTx ever broadcasts is the one
    the signer returned for the transaction that createBlobTx assembled, and
    it is broadcast only when the intent does not ask to hold it back
    (NoSend). *)
Theorem only_the_signed_transaction_is_broadcast
    (c : EthClient) (opts : bind.TransactOpts)
    (contract : option common.Address) (input blobData : list byte)
    (cx : Context) (tx : types.Transaction) :
  In (CallSendTransaction cx tx)
     (calls (TransactBlobTx c opts contract input blobData)) ->
  bind.NoSend opts = false
  /\ exists signer rawTx,
       bind.Signer opts = Some signer
       /\ result (createBlobTx c opts contract input blobData) =
          Done (Some rawTx, None)
       /\ signer (bind.From opts) (Some rawTx) = inl tx.
Proof.
  pose proof (createBlobTx_never_broadcasts c opts contract input blobData
                cx tx) as Hcreate.
  pose proof (createBlobTx_result_shape c opts contract input blobData)
    as Hshape.
  unfold TransactBlobTx.
  destruct (bind.Signer opts) as [signer|]; [|intros []].
  destruct (createBlobTx c opts contract input blobData)
    as [log [[rawTx [e|]]|]]; cbn [calls result fst snd] in Hcreate, Hshape;
    cbn [bind ret calls fst]; rewrite ?app_nil_r; try (intros Hin; tauto).
  destruct rawTx as [rawTx|];
    [|destruct (proj1 (Hshape None None eq_refl) eq_refl); reflexivity].
  destruct (signer (bind.From opts) (Some rawTx)) as [signedTx|e] eqn:Hsign;
    cbn [ret calls fst]; rewrite ?app_nil_r; try (intros Hin; tauto).
  destruct (bind.NoSend opts); cbn [ret request bind calls fst];
    rewrite ?app_nil_r; try (intros Hin; tauto).
  destruct (SendTransaction c (bind.Context_ opts) signedTx);
    cbn [ret calls fst]; rewrite app_nil_r; intros Hin;
    apply in_app_or in Hin as [Hin|[[= <- <-]|[]]]; try tauto;
    (split; [reflexivity|]); exists signer, rawTx; auto.
Qed.

(** X7. With NoSend set, TransactBlobTx broadcasts nothing, whatever
    happens; and when the transaction is assembled and the signer signs it,
    the call returns the signed transaction after the requests of
    createBlobTx alone. *)
Theorem sign_only_never_broadcasts
    (c : EthClient) (opts : bind.TransactOpts)
    (contract : option common.Address) (input blobData : list byte) :
  bind.NoSend opts = true ->
  (forall cx tx,
      ~ In (CallSendTransaction cx tx)
           (calls (TransactBlobTx c opts contract input blobData)))
  /\ (forall signer rawTx signedTx,
        bind.Signer opts = Some signer ->
        result (createBlobTx c opts contract input blobData) =
        Done (rawTx, None) ->
        signer (bind.From opts) rawTx = inl signedTx ->
        TransactBlobTx c opts contract input blobData =
        (calls (createBlobTx c opts contract input blobData),
         Done (Some signedTx, None))).
Proof.
  intros Hhold.
  pose proof (createBlobTx_never_broadcasts c opts contract input blobData)
    as Hcreate.
  unfold TransactBlobTx. split.
  - intros cx tx.
    destruct (bind.Signer opts) as [signer|]; [|intros []].
    destruct (createBlobTx c opts contract input blobData)
      as [log [[rawTx [e|]]|]]; cbn [calls fst] in Hcreate;
      cbn [bind ret calls fst]; rewrite ?app_nil_r; try apply Hcreate.
    destruct (signer (bind.From opts) rawTx) as [signedTx|e];
      rewrite ?Hhold; cbn [ret calls fst]; rewrite app_nil_r; apply Hcreate.
  - intros signer rawTx signedTx -> Hraw Hsign.
    destruct (createBlobTx c opts contract input blobData) as [log out].
    cbn [result snd] in Hraw. subst out. cbn [bind calls fst].
    rewrite Hsign, Hhold. cbn [ret]. now rewrite app_nil_r.
Qed.

(** X8. A transaction that TransactBlobTx returns is the signer's output for
    the transaction createBlobTx assembled; with NoSend it was not sent, and
    otherwise the broadcast of exactly that transaction was the last request
    of the call and the client accepted it. *)
Theorem returned_transaction_is_signed_and_accepted
    (c : EthClient) (opts : bind.TransactOpts)
    (contract : option common.Address) (input blobData : list byte)
    (tx : types.Transaction) :
  result (TransactBlobTx c opts contract input blobData) =
  Done (Some tx, None) ->
  exists signer rawTx,
    bind.Signer opts = Some signer
    /\ result (createBlobTx c opts contract input blobData) =
       Done (Some rawTx, None)
    /\ signer (bind.From opts) (Some rawTx) = inl tx
    /\ (bind.NoSend opts = true ->
        calls (TransactBlobTx c opts contract input blobData) =
        calls (createBlobTx c opts contract input blobData))
    /\ (bind.NoSend opts = false ->
        SendTransaction c (bind.Context_ opts) tx = None
        /\ calls (TransactBlobTx c opts contract input blobData) =
           calls (createBlobTx c opts contract input blobData)
           ++ [CallSendTransaction (bind.Context_ opts) tx]).
Proof.
  pose proof (createBlobTx_result_shape c opts contract input blobData)
    as Hshape.
  unfold TransactBlobTx.
  destruct (bind.Signer opts) as [signer|]; [|discriminate].
  destruct (createBlobTx c opts contract input blobData)
    as [log [[rawTx [e|]]|]]; cbn [result snd] in Hshape;
    cbn [bind ret calls result fst snd]; try discriminate.
  destruct rawTx as [rawTx|];
    [|destruct (proj1 (Hshape None None eq_refl) eq_refl); reflexivity].
  destruct (signer (bind.From opts) (Some rawTx)) as [signedTx|e] eqn:Hsign;
    [|discriminate].
  destruct (bind.NoSend opts); cbn [ret request bind calls result fst snd].
  - intros [= <-]. exists signer, rawTx. rewrite app_nil_r.
    repeat split; auto; discriminate.
  - destruct (SendTransaction c (bind.Context_ opts) signedTx) eqn:Hsend;
      cbn [ret calls result fst snd]; [discriminate|].
    intros [= <-]. exists signer, rawTx. rewrite app_nil_r.
    repeat split; auto; discriminate.
Qed.

(** X9. The blob data has no part in what createBlobTx asks the client:
    any two payloads lead to the same requests, with the same arguments, in
    the same order. *)
Theorem requests_do_not_depend_on_the_blob
    (c : EthClient) (opts : bind.TransactOpts)
    (contract : option common.Address) (input blobData blobData' : list byte) :
  calls (createBlobTx c opts contract input blobData) =
  calls (createBlobTx c opts contract input blobData').
Proof.
  unfold createBlobTx. run_createBlobTx; reflexivity.
Qed.

(** ** The sidecar *)

Lemma MakeSidecarWithSingleBlob_too_large (data : list byte) :
  BlobBytes < len data ->
  MakeSidecarWithSingleBlob data =
  (None, Some (errorString "data is bigger than 128k")).
Proof.
  intros Hlen. unfold MakeSidecarWithSingleBlob.
  destruct (len data >? BlobBytes) eqn:Hcmp; [reflexivity|].
  rewrite Z.gtb_ltb in Hcmp. apply Z.ltb_ge in Hcmp. lia.
Qed.

Lemma MakeSidecarWithSingleBlob_inv
    (data : list byte) (sidecar : option types.BlobTxSidecar)
    (err : option error) :
  MakeSidecarWithSingleBlob data = (sidecar, err) ->
  (sidecar = None /\ err <> None)
  \/ (err = None /\ len data <= BlobBytes
      /\ exists commitment proof,
           BlobToCommitment (copy kzg4844.zeroBlob data) = inl commitment
           /\ ComputeBlobProof (copy kzg4844.zeroBlob data) commitment =
              inl proof
           /\ sidecar =
              Some {| types.Blobs := [copy kzg4844.zeroBlob data];
                      types.Commitments := [commitment];
                      types.Proofs := [proof] |}).
Proof.
  unfold MakeSidecarWithSingleBlob.
  destruct (len data >? BlobBytes) eqn:Hcmp.
  { intros [= <- <-]. left. split; [reflexivity | discriminate]. }
  rewrite Z.gtb_ltb in Hcmp. apply Z.ltb_ge in Hcmp.
  destruct (BlobToCommitment _) as [commitment|f] eqn:Hcommit.
  - destruct (ComputeBlobProof _ _) as [proof|f] eqn:Hproof.
    + intros [= <- <-]. right. split; [reflexivity|]. split; [exact Hcmp|].
      exists commitment, proof. auto.
    + intros [= <- <-]. left. split; [reflexivity | discriminate].
  - intros [= <- <-]. left. split; [reflexivity | discriminate].
Qed.

(** X10. A sidecar that the builder returns comes without an error, for a
    payload of at most BlobBytes bytes, and holds exactly one blob, one
    commitment and one proof; the blob has the full blob length, begins with
    the payload and is zero from there on. An error comes without a
    sidecar. *)
Theorem returned_sidecar_is_well_formed
    (data : list byte) (sidecar : option types.BlobTxSidecar)
    (err : option error) :
  MakeSidecarWithSingleBlob data = (sidecar, err) ->
  (sidecar = None <-> err <> None)
  /\ (forall sc, sidecar = Some sc ->
        len data <= BlobBytes
        /\ exists blob commitment proof,
             types.Blobs sc = [blob]
             /\ types.Commitments sc = [commitment]
             /\ types.Proofs sc = [proof]
             /\ BlobToCommitment blob = inl commitment
             /\ ComputeBlobProof blob commitment = inl proof
             /\ List.length blob = kzg4844.BlobLen
             /\ firstn (List.length data) blob = data
             /\ skipn (List.length data) blob =
                repeat x00 (kzg4844.BlobLen - List.length data)).
Proof.
  intros Hmake.
  destruct (MakeSidecarWithSingleBlob_inv data sidecar err Hmake)
    as [[-> Herr]|(-> & Hlen & commitment & proof & Hcommit & Hproof & ->)].
  - split; [tauto | discriminate].
  - split; [split; [discriminate | intros Hne; now elim Hne]|].
    intros sc [= <-]. split; [exact Hlen|].
    assert (Hnat : (List.length data <= kzg4844.BlobLen)%nat).
    { unfold len, BlobBytes in Hlen. unfold kzg4844.BlobLen. lia. }
    exists (copy kzg4844.zeroBlob data), commitment, proof.
    cbn [types.Blobs types.Commitments types.Proofs].
    repeat (split; [reflexivity || assumption|]).
    rewrite (copy_into_zeroBlob data Hnat).
    split; [|split].
    + rewrite length_app, repeat_length. lia.
    + rewrite firstn_app, firstn_all, Nat.sub_diag, firstn_O. apply app_nil_r.
    + rewrite skipn_app, skipn_all, Nat.sub_diag. reflexivity.
Qed.

(** X11. At the bounds of the payload length. A payload of exactly
    BlobBytes bytes is accepted (given that its commitment and proof are
    computed) and is the blob itself, with no padding; the empty payload is
    accepted likewise and gives the all-zero blob; one byte more than
    BlobBytes is refused. *)
Theorem sidecar_blob_at_the_bounds
    (data : list byte) (commitment : kzg4844.Commitment)
    (proof : kzg4844.Proof) :
  (len data = BlobBytes ->
   BlobToCommitment data = inl commitment ->
   ComputeBlobProof data commitment = inl proof ->
   MakeSidecarWithSingleBlob data =
   (Some {| types.Blobs := [data];
            types.Commitments := [commitment];
            types.Proofs := [proof] |}, None))
  /\ (BlobToCommitment kzg4844.zeroBlob = inl commitment ->
      ComputeBlobProof kzg4844.zeroBlob commitment = inl proof ->
      MakeSidecarWithSingleBlob [] =
      (Some {| types.Blobs := [repeat x00 kzg4844.BlobLen];
               types.Commitments := [commitment];
               types.Proofs := [proof] |}, None))
  /\ (len data = BlobBytes + 1 ->
      MakeSidecarWithSingleBlob data =
      (None, Some (errorString "data is bigger than 128k"))).
Proof.
  split; [|split].
  - intros Hfull Hcommit Hproof.
    assert (Hnat : (List.length data <= kzg4844.BlobLen)%nat).
    { unfold len, BlobBytes in Hfull. unfold kzg4844.BlobLen. lia. }
    assert (Hcopy : copy kzg4844.zeroBlob data = data).
    { rewrite (copy_into_zeroBlob data Hnat).
      replace (kzg4844.BlobLen - List.length data)%nat with 0%nat
        by (unfold len, BlobBytes in Hfull; unfold kzg4844.BlobLen; lia).
      apply app_nil_r. }
    unfold MakeSidecarWithSingleBlob.
    destruct (len data >? BlobBytes) eqn:Hcmp.
    + rewrite Z.gtb_ltb in Hcmp. apply Z.ltb_lt in Hcmp. lia.
    + rewrite Hcopy, Hcommit, Hproof. reflexivity.
  - intros Hcommit Hproof.
    assert (Hcopy : copy kzg4844.zeroBlob (@nil byte) = kzg4844.zeroBlob).
    { rewrite copy_into_zeroBlob
        by (cbn [List.length]; exact (Nat.le_0_l kzg4844.BlobLen)).
      cbn [List.length app]. rewrite Nat.sub_0_r.
      unfold kzg4844.zeroBlob. reflexivity. }
    unfold MakeSidecarWithSingleBlob.
    change (len (@nil byte) >? BlobBytes) with false. cbv iota.
    rewrite Hcopy, Hcommit, Hproof. reflexivity.
  - intros Hover. apply MakeSidecarWithSingleBlob_too_large. lia.
Qed.

(** X12. With a payload longer than BlobBytes, createBlobTx never succeeds:
    it returns an error or faults. The size is checked last: the size error
    is returned only after the chain id has been requested, and it is what a
    call returns once the chain id has been answered. *)
Theorem oversized_payload_fails_after_the_requests
    (c : EthClient) (opts : bind.TransactOpts)
    (contract : option common.Address) (input blobData : list byte) :
  BlobBytes < len blobData ->
  let run := createBlobTx c opts contract input blobData in
  let tooLarge := errorString "data is bigger than 128k" in
  (forall tx, result run <> Done (Some tx, None))
  /\ (forall tx, result run = Done (tx, Some tooLarge) ->
        In (CallChainID (bind.Context_ opts)) (calls run))
  /\ (forall chainID,
        In (CallChainID (bind.Context_ opts)) (calls run) ->
        ChainID c (bind.Context_ opts) = inl chainID ->
        result run = Done (None, Some tooLarge)).
Proof.
  intros Hlen run tooLarge. subst run tooLarge.
  pose proof (MakeSidecarWithSingleBlob_too_large blobData Hlen) as Hbig.
  destruct (createBlobTx c opts contract input blobData) as [log out] eqn:Hrun.
  cbn [calls result fst snd]. revert Hrun. unfold createBlobTx.
  rewrite Hbig.
  run_createBlobTx; intros Hrun; tidy; (split; [|split]).
  all: try (intros ? Hout; tidy; fail).
  all: try (intros ? Hin ?; tidy; cbn [In] in Hin;
            repeat (destruct Hin as [Hin|Hin]); tidy; try contradiction;
            reflexivity).
  all: intros ? Hout; cbn [In]; tidy; tauto.
Qed.

(** ** The assembled transaction *)

Lemma MustFromBig_None (b : Z) :
  uint256.MustFromBig b = None -> 2 ^ 256 <= Z.abs b.
Proof.
  unfold uint256.MustFromBig, uint256.SetFromBig, uint256.modulus.
  destruct (2 ^ 256 <=? Z.abs b) eqn:Hov; [|discriminate].
  intros _. apply Z.leb_le, Hov.
Qed.

(** X13. A tip cap given in the intent is used without asking the client
    for a suggestion. Without one, the suggestion is requested right after
    the header; a refused suggestion ends the call with that refusal, and a
    construction that succeeds carries the suggested tip cap. *)
Theorem tip_cap_override_or_suggestion
    (c : EthClient) (opts : bind.TransactOpts)
    (contract : option common.Address) (input blobData : list byte) :
  let run := createBlobTx c opts contract input blobData in
  let cx := bind.Context_ opts in
  (forall tip, bind.GasTipCap opts = Some tip ->
     ~ In (CallSuggestGasTipCap cx) (calls run)
     /\ forall tx, result run = Done (Some tx, None) ->
          uint256.MustFromBig tip = Some (types.GasTipCap (types.inner tx)))
  /\ (bind.GasTipCap opts = None ->
      forall header, HeaderByNumber c cx None = inl header ->
        (exists rest,
            calls run =
            CallHeaderByNumber cx None :: CallSuggestGasTipCap cx :: rest)
        /\ (forall f, SuggestGasTipCap c cx = inr f ->
              run = ([CallHeaderByNumber cx None; CallSuggestGasTipCap cx],
                     Done (None, Some (foreign f))))
        /\ (forall tx, result run = Done (Some tx, None) ->
              exists tip,
                SuggestGasTipCap c cx = inl tip
                /\ uint256.MustFromBig tip =
                   Some (types.GasTipCap (types.inner tx)))).
Proof.
  intros run cx. subst run cx.
  destruct (createBlobTx c opts contract input blobData) as [log out] eqn:Hrun.
  cbn [calls result fst snd]. revert Hrun. unfold createBlobTx.
  run_createBlobTx; intros Hrun; tidy; split.
  all: try (intros ? Htip; tidy; fail).
  all: try (intros ? Htip; tidy;
            (split; [cbn [In]; intuition discriminate|]);
            intros ? Hout; tidy; cbn [types.inner types.GasTipCap];
            assumption).
  all: intros _ ? Hheader; tidy;
    (split; [eexists; reflexivity|]);
    (split; [intros ? Hf; tidy; reflexivity|]);
    intros ? Hout; tidy; cbn [types.inner types.GasTipCap];
    eexists; (split; [reflexivity | assumption]).
Qed.

Ltac project_intent :=
  cbn [withValue bind.From bind.Nonce bind.Signer bind.Value bind.GasPrice
       bind.GasFeeCap bind.GasTipCap bind.GasLimit bind.Context_ bind.NoSend].

Lemma SetFromBig_mod (value : Z) :
  fst (uint256.SetFromBig (value mod 2 ^ 256)) =
  fst (uint256.SetFromBig value).
Proof.
  unfold uint256.SetFromBig, uint256.modulus. cbn [fst].
  apply Z.mod_mod. lia.
Qed.

(** X14. In the assembled transaction an absent recipient becomes the zero
    address and an absent value becomes zero; a value that is given is
    stored modulo 2^256. The value never stops the construction: whatever it
    is, the requests are the same and the construction succeeds exactly
    when it succeeds for the intent as given, and a value runs exactly like
    its remainder modulo 2^256. The gas estimate, in contrast, is asked for
    the recipient as given and without a value. *)
Theorem recipient_and_value_are_normalised
    (c : EthClient) (opts : bind.TransactOpts)
    (contract : option common.Address) (input blobData : list byte) :
  let run := createBlobTx c opts contract input blobData in
  (forall tx, result run = Done (Some tx, None) ->
     types.To (types.inner tx) =
       match contract with
       | Some recipient => recipient
       | None => repeat x00 20
       end
     /\ types.Value (types.inner tx) =
       match bind.Value opts with
       | Some value => value mod 2 ^ 256
       | None => 0
       end
     /\ 0 <= types.Value (types.inner tx) < 2 ^ 256)
  /\ (forall cx msg, In (cx, msg) (estimateGasRequests (calls run)) ->
        ethereum.To msg = contract /\ ethereum.Value msg = None)
  /\ (forall value,
        let run' :=
          createBlobTx c (withValue opts value) contract input blobData in
        calls run' = calls run
        /\ ((exists tx, result run' = Done (Some tx, None))
            <-> (exists tx, result run = Done (Some tx, None))))
  /\ (forall value,
        createBlobTx c (withValue opts (Some value)) contract input blobData =
        createBlobTx c (withValue opts (Some (value mod 2 ^ 256)))
          contract input blobData).
Proof.
  intros run. subst run. split; [|split; [|split]].
  - destruct (createBlobTx c opts contract input blobData)
      as [log out] eqn:Hrun.
    cbn [calls result fst snd]. revert Hrun. unfold createBlobTx.
    run_createBlobTx; intros Hrun ? Hout; tidy;
      cbn [types.inner types.To types.Value];
      (split; [reflexivity|]);
      (split; [destruct (bind.Value opts); reflexivity|]);
      (destruct (bind.Value opts);
       [apply Z.mod_pos_bound | unfold uint256.NewInt]; lia).
  - destruct (createBlobTx c opts contract input blobData)
      as [log out] eqn:Hrun.
    cbn [calls result fst snd]. revert Hrun. unfold createBlobTx.
    run_createBlobTx; intros Hrun ? ? Hin; tidy;
      cbn [estimateGasRequests In] in Hin;
      repeat (destruct Hin as [Hin|Hin]); try contradiction; tidy;
      split; reflexivity.
  - intros value run'. subst run'. unfold createBlobTx, getNonce.
    project_intent.
    run_createBlobTx;
      (split; [reflexivity|]);
      (split; intros [? Hout]; tidy; eexists; reflexivity).
  - intros value. unfold createBlobTx, getNonce. project_intent.
    rewrite SetFromBig_mod. reflexivity.
Qed.

(** X15. The transaction that createBlobTx assembles has an empty access
    list and the input bytes as its data, and carries the sidecar built from
    the blob data together with its blob hashes: exactly one hash, the
    versioned hash of the sidecar's one commitment. *)
Theorem assembled_transaction_carries_one_blob
    (c : EthClient) (opts : bind.TransactOpts)
    (contract : option common.Address) (input blobData : list byte)
    (tx : types.Transaction) :
  result (createBlobTx c opts contract input blobData) =
  Done (Some tx, None) ->
  types.Data (types.inner tx) = input
  /\ types.AccessList (types.inner tx) = []
  /\ exists sidecar commitment,
       MakeSidecarWithSingleBlob blobData = (Some sidecar, None)
       /\ types.Sidecar (types.inner tx) = Some sidecar
       /\ types.Commitments sidecar = [commitment]
       /\ types.BlobHashes_ (types.inner tx) = [CalcBlobHashV1 commitment].
Proof.
  destruct (createBlobTx c opts contract input blobData) as [log out] eqn:Hrun.
  cbn [result snd]. revert Hrun. unfold createBlobTx.
  run_createBlobTx; intros Hrun Hout; tidy;
    cbn [types.inner types.Data types.AccessList
         types.Sidecar types.BlobHashes_];
    repeat (split; [reflexivity|]).
  all: match goal with
       | H : MakeSidecarWithSingleBlob _ = (Some ?sc, None) |- _ =>
         destruct (MakeSidecarWithSingleBlob_inv _ _ _ H)
           as [[Hnone _]|(_ & _ & commitment & proof & _ & _ & Hsc)];
         [discriminate|]; injection Hsc as ->;
         eexists; exists commitment; repeat split; reflexivity
       end.
Qed.

(** X16. createBlobTx faults in two situations only: right after the tip
    cap is resolved, when the intent has no fee cap and the fetched header
    has no base fee; or at assembly, after the chain id has been requested,
    when the tip cap, the fee cap or the blob fee does not fit 256 bits. *)
Theorem faults_only_without_base_fee_or_on_overflow
    (c : EthClient) (opts : bind.TransactOpts)
    (contract : option common.Address) (input blobData : list byte) :
  let run := createBlobTx c opts contract input blobData in
  result run = Panic ->
  exists header tip,
    HeaderByNumber c (bind.Context_ opts) None = inl header
    /\ resolvedTipCap c opts = inl tip
    /\ ((bind.GasFeeCap opts = None /\ types.BaseFee header = None)
        \/ exists fee,
             resolvedFeeCap opts header tip = Some fee
             /\ tip <= fee
             /\ In (CallChainID (bind.Context_ opts)) (calls run)
             /\ (2 ^ 256 <= Z.abs tip
                 \/ 2 ^ 256 <= Z.abs fee
                 \/ 2 ^ 256 <=
                    CalcBlobFee match types.ExcessBlobGas header with
                                | Some excessBlobGas => excessBlobGas
                                | None => 100066
                                end)).
Proof.
  intros run. subst run.
  destruct (createBlobTx c opts contract input blobData) as [log out] eqn:Hrun.
  cbn [calls result fst snd]. revert Hrun. unfold createBlobTx.
  run_createBlobTx; intros Hrun Hout; tidy.
  all: try match goal with
       | H : MakeSidecarWithSingleBlob _ = (None, None) |- _ =>
         destruct (MakeSidecarWithSingleBlob_inv _ _ _ H)
           as [[_ Hne]|(_ & _ & ? & ? & _ & _ & ?)];
         [now elim Hne | discriminate]
       end.
  all: do 2 eexists; (split; [reflexivity|]);
    (split; [unfold resolvedTipCap; use_options; reflexivity|]).
  all: try (left; split; first [reflexivity | assumption]).
  all: right; eexists;
    (split; [unfold resolvedFeeCap; use_options; reflexivity|]);
    (split; [lia|]); (split; [cbn [In]; tauto|]).
  all: repeat match goal with
       | H : uint256.MustFromBig _ = None |- _ => apply MustFromBig_None in H
       end.
  all: try (left; assumption).
  all: try (right; left; assumption).
  all: right; right;
    match goal with
    | H : 2 ^ 256 <= Z.abs (CalcBlobFee ?x) |- _ =>
      rewrite Z.abs_eq in H by apply CalcBlobFee_nonneg; exact H
    end.
Qed.

(** X17. A construction that succeeds has asked the client for the header
    first and for the chain id last, and in between for the tip suggestion,
    the gas estimate and the pending nonce exactly when the intent leaves
    the tip cap, the gas limit and the nonce open: between two and five
    requests in all. *)
Theorem successful_construction_requests
    (c : EthClient) (opts : bind.TransactOpts)
    (contract : option common.Address) (input blobData : list byte)
    (tx : types.Transaction) :
  let run := createBlobTx c opts contract input blobData in
  result run = Done (Some tx, None) ->
  map method (calls run) =
    [0%nat]
    ++ match bind.GasTipCap opts with Some _ => [] | None => [1%nat] end
    ++ (if bind.GasLimit opts =? 0 then [2%nat] else [])
    ++ match bind.Nonce opts with Some _ => [] | None => [3%nat] end
    ++ [4%nat]
  /\ (2 <= List.length (calls run) <= 5)%nat.
Proof.
  intros run. subst run.
  destruct (createBlobTx c opts contract input blobData) as [log out] eqn:Hrun.
  cbn [calls result fst snd]. revert Hrun. unfold createBlobTx.
  run_createBlobTx; intros Hrun Hout; tidy;
    (split; [reflexivity | cbn [List.length]; lia]).
Qed.

(** X18. Every number of an assembled transaction that the code converts
    fits the type of its field: the chain id fits 64 bits, and so does the
    nonce when it comes from the intent; the tip cap, the fee cap, the blob
    fee cap and the value fit 256 bits. *)
Theorem assembled_numbers_fit_their_fields
    (c : EthClient) (opts : bind.TransactOpts)
    (contract : option common.Address) (input blobData : list byte)
    (tx : types.Transaction) :
  result (createBlobTx c opts contract input blobData) =
  Done (Some tx, None) ->
  0 <= types.ChainID (types.inner tx) < 2 ^ 64
  /\ (bind.Nonce opts <> None -> 0 <= types.Nonce (types.inner tx) < 2 ^ 64)
  /\ 0 <= types.GasTipCap (types.inner tx) < 2 ^ 256
  /\ 0 <= types.GasFeeCap (types.inner tx) < 2 ^ 256
  /\ 0 <= types.BlobFeeCap (types.inner tx) < 2 ^ 256
  /\ 0 <= types.Value (types.inner tx) < 2 ^ 256.
Proof.
  destruct (createBlobTx c opts contract input blobData) as [log out] eqn:Hrun.
  cbn [result snd]. revert Hrun. unfold createBlobTx.
  run_createBlobTx; intros Hrun Hout; tidy;
    cbn [types.inner types.ChainID types.Nonce types.GasTipCap
         types.GasFeeCap types.BlobFeeCap types.Value];
    repeat match goal with
    | H : uint256.MustFromBig _ = Some _ |- _ =>
      apply MustFromBig_Some in H; destruct H as [-> _]
    end;
    unfold uint256.NewInt, uint256.SetFromBig, uint256.modulus, Uint64;
    cbn [fst];
    (split; [apply Z.mod_pos_bound; lia|]);
    (split; [intros Hnonce; try (now elim Hnonce);
             apply Z.mod_pos_bound; lia|]);
    repeat (split; [apply Z.mod_pos_bound; lia|]);
    (destruct (bind.Value opts); [apply Z.mod_pos_bound; lia | lia]).
Qed.

(** X19. With the fee cap left to createBlobTx and a header whose base fee
    is not negative, the fee check cannot fail: no error that the call
    returns is the fee-ordering error. *)
Theorem default_fee_cap_passes_the_fee_check
    (c : EthClient) (opts : bind.TransactOpts)
    (contract : option common.Address) (input blobData : list byte)
    (header : types.Header) (baseFee : Z) :
  HeaderByNumber c (bind.Context_ opts) None = inl header ->
  types.BaseFee header = Some baseFee ->
  0 <= baseFee ->
  bind.GasFeeCap opts = None ->
  forall tx err,
    result (createBlobTx c opts contract input blobData) =
    Done (tx, Some err) ->
    InvalidFeeOrdering err = false.
Proof.
  intros Hheader Hbase Hpos Hfee. revert Hbase.
  destruct (createBlobTx c opts contract input blobData) as [log out] eqn:Hrun.
  cbn [result snd]. revert Hrun. unfold createBlobTx.
  rewrite Hheader, Hfee.
  run_createBlobTx; intros Hrun Hbase ? ? Hout; tidy; try lia;
    cbn [InvalidFeeOrdering];
    eauto using MakeSidecarWithSingleBlob_error.
Qed.

End Engine.

(** * The engine on concrete intents *)

#[local] Existing Instance fake.protocol.

(** The test protocol prices the fallback excess blob gas at 1. *)
Example calcBlobFee_fallback : fake.calcBlobFee 100066 = 1.
Proof. reflexivity. Qed.

(** Scenario D: an intent without signer. *)
Lemma no_signer_witness :
  TransactBlobTx fake.client (fake.intent None None None 0 None)
    (Some fake.taikoL1) [] fake.payload =
  ([], Done (None, Some (errorString
               "no signer to authorize the transaction with"))).
Proof.
  apply no_signer_fails_before_any_request. reflexivity.
Defined.

(** C1, as stated, fails: against a client that refuses the broadcast, the
    intent is assembled and signed, and TransactBlobTx returns the refusal
    with no transaction next to it, not the signed transaction. *)
Lemma submission_failure_drops_signed_transaction :
  exists rawTx signedTx err,
    result (createBlobTx fake.clientSendFails fake.opts (Some fake.taikoL1)
              [] fake.payload) = Done (Some rawTx, None)
    /\ fake.signer (bind.From fake.opts) (Some rawTx) = inl signedTx
    /\ SendTransaction fake.clientSendFails (bind.Context_ fake.opts) signedTx
       = Some err
    /\ result (TransactBlobTx fake.clientSendFails fake.opts
                 (Some fake.taikoL1) [] fake.payload)
       = Done (None, Some (foreign err))
    /\ result (TransactBlobTx fake.clientSendFails fake.opts
                 (Some fake.taikoL1) [] fake.payload)
       <> Done (Some signedTx, Some (foreign err)).
Proof.
  do 3 eexists. split; [reflexivity|]. split; [reflexivity|].
  split; [reflexivity|].
  assert (Hrun : result (TransactBlobTx fake.clientSendFails fake.opts
                           (Some fake.taikoL1) [] fake.payload)
                 = Done (None, Some (foreign "nonce too low"%string)))
    by reflexivity.
  split; [exact Hrun|]. rewrite Hrun. discriminate.
Qed.

Lemma submission_failure_witness :
  exists log signedTx,
    TransactBlobTx fake.clientSendFails fake.opts (Some fake.taikoL1) []
      fake.payload =
    (log ++ [CallSendTransaction (ctx 0) signedTx],
     Done (None, Some (foreign "nonce too low"%string))).
Proof.
  do 2 eexists.
  eapply (submission_failure_returns_only_the_error fake.clientSendFails
           fake.opts (Some fake.taikoL1) [] fake.payload fake.signer);
    reflexivity.
Defined.

(** C2, as stated, fails: for a payload of 131073 bytes the message is the
    fixed text, in which the length 131073 does not occur. *)
Lemma oversized_payload_message_lacks_length :
  let data := repeat x00 (Z.to_nat 131073) in
  len data = 131073
  /\ MakeSidecarWithSingleBlob data =
     (None, Some (errorString "data is bigger than 128k"))
  /\ Contains "data is bigger than 128k" (fmt_v (len data)) = false.
Proof.
  intros data.
  assert (Hlen : len data = 131073) by (apply len_repeat; lia).
  split; [exact Hlen|]. split.
  - unfold MakeSidecarWithSingleBlob. rewrite Hlen. reflexivity.
  - rewrite Hlen. reflexivity.
Qed.

(** Scenario B: a payload one byte over the capacity. *)
Lemma payload_too_large_witness :
  BlobBytes < len (repeat x00 (Z.to_nat 131073))
  /\ MakeSidecarWithSingleBlob (repeat x00 (Z.to_nat 131073)) =
     (None, Some (errorString "data is bigger than 128k")).
Proof.
  assert (Hlen : BlobBytes < len (repeat x00 (Z.to_nat 131073))).
  { rewrite len_repeat by lia. reflexivity. }
  split; [exact Hlen|].
  apply (payload_too_large_fixed_message _ Hlen).
Defined.

(** A three-byte payload in the test protocol. *)
Lemma sidecar_witness :
  let blob := fake.payload ++ repeat x00 (kzg4844.BlobLen - 3) in
  MakeSidecarWithSingleBlob fake.payload =
  (Some {| types.Blobs := [blob];
           types.Commitments := [firstn 48 blob];
           types.Proofs := [rev (firstn 48 blob)] |}, None).
Proof.
  apply (sidecar_single_zero_padded_blob fake.payload).
  - unfold len, BlobBytes. simpl. lia.
  - reflexivity.
  - reflexivity.
Defined.

(** C3, as stated, fails in the assembled transaction: with the tip cap -1
    and the fee cap 5 the fee check passes, the construction succeeds, and
    the transaction stores the tip cap 2^256 - 1 above the fee cap 5. *)
Lemma negative_tip_cap_is_assembled_above_the_fee_cap :
  let opts := fake.intent None (Some (-1)) (Some 5) 0 (Some fake.signer) in
  exists tx,
    result (createBlobTx fake.client opts (Some fake.taikoL1) []
              fake.payload) = Done (Some tx, None)
    /\ types.GasTipCap (types.inner tx) = 2 ^ 256 - 1
    /\ types.GasFeeCap (types.inner tx) = 5
    /\ ~ types.GasTipCap (types.inner tx) <= types.GasFeeCap (types.inner tx).
Proof.
  intros opts. eexists. split; [reflexivity|]. split; [reflexivity|].
  split; [reflexivity|]. intros Hle. apply Hle. reflexivity.
Qed.

(** Scenario C: explicit tip cap 10 and fee cap 5; and the intent without
    overrides, whose caps 3 and 3 + 2 * 7 are assembled in order. *)
Lemma fee_ordering_witness :
  result (createBlobTx fake.client
            (fake.intent None (Some 10) (Some 5) 0 (Some fake.signer))
            (Some fake.taikoL1) [] fake.payload) =
  Done (None, Some (errorString
                      "maxFeePerGas (5) < maxPriorityFeePerGas (10)"))
  /\ exists tx,
       result (createBlobTx fake.client fake.opts (Some fake.taikoL1) []
                 fake.payload) = Done (Some tx, None)
       /\ types.GasTipCap (types.inner tx) <= types.GasFeeCap (types.inner tx).
Proof.
  split.
  - apply (fee_ordering_enforced fake.client
             (fake.intent None (Some 10) (Some 5) 0 (Some fake.signer))
             (Some fake.taikoL1) [] fake.payload fake.header 10 5);
      [reflexivity | reflexivity | reflexivity | lia].
  - eexists. split; [reflexivity|].
    apply (fee_ordering_enforced fake.client fake.opts (Some fake.taikoL1) []
             fake.payload fake.header 3 17);
      [reflexivity | reflexivity | reflexivity | reflexivity | lia].
Defined.



(** C7, as stated, fails: the explicit nonce 2^64 is assembled as nonce 0. *)
Lemma explicit_nonce_not_verbatim :
  let opts := fake.intent (Some (2 ^ 64)) None None 0 (Some fake.signer) in
  exists tx,
    bind.Nonce opts = Some (2 ^ 64)
    /\ result (createBlobTx fake.client opts (Some fake.taikoL1) []
                 fake.payload) = Done (Some tx, None)
    /\ types.Nonce (types.inner tx) = 0
    /\ types.Nonce (types.inner tx) <> 2 ^ 64.
Proof.
  intros opts. eexists. split; [reflexivity|]. split; [reflexivity|].
  split; [reflexivity|]. discriminate.
Qed.

(** Scenario E: explicit nonce 42. *)
Lemma nonce_witness :
  let run :=
    createBlobTx fake.client
      (fake.intent (Some 42) None None 0 (Some fake.signer))
      (Some fake.taikoL1) [] fake.payload in
  pendingNonceRequests (calls run) = []
  /\ exists tx, result run = Done (Some tx, None)
                /\ types.Nonce (types.inner tx) = 42.
Proof.
  intros run.
  destruct (proj1 (nonce_explicit_or_pending fake.client
                     (fake.intent (Some 42) None None 0 (Some fake.signer))
                     (Some fake.taikoL1) [] fake.payload) 42 eq_refl)
    as [Hlog Htx].
  split; [exact Hlog|].
  eexists. split; [reflexivity|].
  apply Htx; [reflexivity | lia].
Defined.

(** Scenario A: the gas limit is the estimator's answer. *)
Lemma gas_limit_witness :
  let run :=
    createBlobTx fake.client fake.opts (Some fake.taikoL1) [x0a]
      fake.payload in
  estimateGasRequests (calls run) =
  [(ctx 0, {| ethereum.From := fake.sender;
              ethereum.To := Some fake.taikoL1;
              ethereum.GasPrice := None;
              ethereum.GasTipCap := Some 3;
              ethereum.GasFeeCap := Some 17;
              ethereum.Value := None;
              ethereum.Data := [x0a] |})]
  /\ exists tx, result run = Done (Some tx, None)
                /\ types.Gas (types.inner tx) = 21000.
Proof.
  intros run.
  destruct (gas_limit_override_or_estimate fake.client fake.opts
              (Some fake.taikoL1) [x0a] fake.payload fake.header 3 17
              eq_refl eq_refl eq_refl ltac:(lia))
    as (_ & Hest & _).
  destruct (Hest eq_refl) as [Hlog Htx].
  split; [exact Hlog|].
  eexists. split; [reflexivity|].
  exact (f_equal (fun r : Z + failure =>
                    match r with inl gas => gas | inr _ => 0 end)
           (eq_sym (Htx _ eq_refl))).
Defined.

(** The header of the test client has no excess blob gas. *)
Lemma blob_fee_cap_witness :
  exists tx,
    result (createBlobTx fake.client fake.opts (Some fake.taikoL1) []
              fake.payload) = Done (Some tx, None)
    /\ types.BlobFeeCap (types.inner tx) = fake.calcBlobFee 100066.
Proof.
  eexists. split; [reflexivity|].
  refine (proj2 (blob_fee_cap_from_excess_blob_gas fake.client fake.opts
                   (Some fake.taikoL1) [] fake.payload fake.header _
                   eq_refl _) eq_refl).
  reflexivity.
Defined.

(** A client on chain 2^64 + 167. *)
Lemma chain_id_witness :
  let c := withChainID fake.client (inl (2 ^ 64 + 167)) in
  exists tx,
    result (createBlobTx c fake.opts (Some fake.taikoL1) [] fake.payload) =
    Done (Some tx, None)
    /\ types.ChainID (types.inner tx) = 167
    /\ types.ChainID (types.inner tx) <> 2 ^ 64 + 167.
Proof.
  intros c.
  destruct (chain_id_truncated_to_64_bits c fake.opts (Some fake.taikoL1) []
              fake.payload (2 ^ 64 + 167) ltac:(lia) eq_refl)
    as [Htx _].
  eexists. split; [reflexivity|].
  destruct (Htx _ eq_refl) as [Hid Hne].
  split; [exact Hid | apply Hne; lia].
Defined.

(** * The further properties on concrete intents *)

(** A client that refuses the pending-nonce request: the call ends there. *)
Lemma first_refusal_witness :
  result (TransactBlobTx fake.clientNonceFails fake.opts (Some fake.taikoL1)
            [] fake.payload) =
  Done (None, Some (foreign "unknown account"%string)).
Proof.
  apply (call_stops_at_the_first_refused_request fake.clientNonceFails
           fake.opts (Some fake.taikoL1) [] fake.payload
           (removelast (calls (TransactBlobTx fake.clientNonceFails fake.opts
                                 (Some fake.taikoL1) [] fake.payload)))
           (CallPendingNonceAt (ctx 0) fake.sender));
    reflexivity.
Defined.

(** Scenario C ends after the header request. *)
Lemma fee_check_witness :
  calls (createBlobTx fake.client
           (fake.intent None (Some 10) (Some 5) 0 (Some fake.signer))
           (Some fake.taikoL1) [] fake.payload) =
  [CallHeaderByNumber (ctx 0) None].
Proof.
  apply (fee_check_precedes_the_remaining_requests fake.client
           (fake.intent None (Some 10) (Some 5) 0 (Some fake.signer))
           (Some fake.taikoL1) [] fake.payload fake.header 10 5);
    [reflexivity | reflexivity | reflexivity | lia].
Defined.

(** The offline client: an error and no transaction. *)
Lemma no_transaction_with_error_witness :
  result (TransactBlobTx fake.clientOffline fake.opts (Some fake.taikoL1) []
            fake.payload) =
  Done (None, Some (foreign "connection refused"%string))
  /\ @None types.Transaction = None.
Proof.
  split; [reflexivity|].
  apply (proj2 (no_transaction_comes_with_an_error fake.clientOffline
                  fake.opts (Some fake.taikoL1) [] fake.payload None
                  (Some (foreign "connection refused"%string))));
    [reflexivity | discriminate].
Defined.

(** The test client broadcasts what the test signer returned. *)
Lemma broadcast_witness :
  exists tx,
    In (CallSendTransaction (ctx 0) tx)
       (calls (TransactBlobTx fake.client fake.opts (Some fake.taikoL1) []
                 fake.payload))
    /\ exists rawTx,
         result (createBlobTx fake.client fake.opts (Some fake.taikoL1) []
                   fake.payload) = Done (Some rawTx, None)
         /\ fake.signer fake.sender (Some rawTx) = inl tx.
Proof.
  eexists ?[tx].
  assert (Hin : In (CallSendTransaction (ctx 0) ?tx)
                   (calls (TransactBlobTx fake.client fake.opts
                             (Some fake.taikoL1) [] fake.payload))).
  { do 5 right. left. reflexivity. }
  split; [exact Hin|].
  destruct (only_the_signed_transaction_is_broadcast _ _ _ _ _ _ _ Hin)
    as (_ & signer & rawTx & [= <-] & Hraw & Hsign).
  exists rawTx. split; [exact Hraw | exact Hsign].
Defined.

(** Sign only. *)
Lemma sign_only_witness :
  exists signedTx,
    TransactBlobTx fake.client fake.signOnly (Some fake.taikoL1) []
      fake.payload =
    (calls (createBlobTx fake.client fake.signOnly (Some fake.taikoL1) []
              fake.payload),
     Done (Some signedTx, None)).
Proof.
  eexists.
  eapply (proj2 (sign_only_never_broadcasts fake.client fake.signOnly
                   (Some fake.taikoL1) [] fake.payload eq_refl)
            fake.signer);
    reflexivity.
Defined.

(** What the test client accepted is what the call returns. *)
Lemma returned_transaction_witness :
  exists tx,
    result (TransactBlobTx fake.client fake.opts (Some fake.taikoL1) []
              fake.payload) = Done (Some tx, None)
    /\ SendTransaction fake.client (ctx 0) tx = None.
Proof.
  eexists. split; [reflexivity|].
  edestruct (returned_transaction_is_signed_and_accepted fake.client
               fake.opts (Some fake.taikoL1) [] fake.payload)
    as (signer & rawTx & _ & _ & _ & _ & Hsent); [reflexivity|].
  exact (proj1 (Hsent eq_refl)).
Defined.

(** The sidecar of the three-byte payload. *)
Lemma returned_sidecar_witness :
  exists sc,
    MakeSidecarWithSingleBlob fake.payload = (Some sc, None)
    /\ exists blob, types.Blobs sc = [blob]
                    /\ List.length blob = kzg4844.BlobLen
                    /\ firstn 3 blob = fake.payload.
Proof.
  eexists. split; [reflexivity|].
  edestruct (returned_sidecar_is_well_formed fake.payload) as [_ Hsc];
    [reflexivity|].
  destruct (Hsc _ eq_refl)
    as (_ & blob & commitment & proof & Hblob & _ & _ & _ & _ & Hlen & Hdata
        & _).
  exists blob. split; [exact Hblob|]. split; [exact Hlen | exact Hdata].
Defined.

(** A payload that fills the blob, and the empty payload. *)
Lemma payload_bounds_witness :
  let data := repeat x2a (Z.to_nat 131072) in
  len data = BlobBytes
  /\ MakeSidecarWithSingleBlob data =
     (Some {| types.Blobs := [data];
              types.Commitments := [firstn 48 data];
              types.Proofs := [rev (firstn 48 data)] |}, None)
  /\ MakeSidecarWithSingleBlob [] =
     (Some {| types.Blobs := [repeat x00 kzg4844.BlobLen];
              types.Commitments := [firstn 48 kzg4844.zeroBlob];
              types.Proofs := [rev (firstn 48 kzg4844.zeroBlob)] |}, None).
Proof.
  intros data.
  assert (Hlen : len data = BlobBytes).
  { subst data. rewrite len_repeat by lia. reflexivity. }
  split; [exact Hlen|]. split.
  - apply (proj1 (sidecar_blob_at_the_bounds data (firstn 48 data)
                    (rev (firstn 48 data))) Hlen); reflexivity.
  - apply (proj1 (proj2 (sidecar_blob_at_the_bounds []
                           (firstn 48 kzg4844.zeroBlob)
                           (rev (firstn 48 kzg4844.zeroBlob)))));
      reflexivity.
Defined.

(** A payload one byte over the capacity never yields a transaction. *)
Lemma oversized_payload_witness :
  ~ exists tx,
      result (createBlobTx fake.client fake.opts (Some fake.taikoL1) []
                (repeat x00 (Z.to_nat 131073))) = Done (Some tx, None).
Proof.
  intros [tx Hout].
  refine (proj1 (oversized_payload_fails_after_the_requests fake.client
                   fake.opts (Some fake.taikoL1) []
                   (repeat x00 (Z.to_nat 131073)) _) tx Hout).
  rewrite len_repeat by lia. reflexivity.
Defined.

(** An intent with tip cap 10 and fee cap 40. *)
Lemma tip_cap_witness :
  ~ In (CallSuggestGasTipCap (ctx 0))
       (calls (createBlobTx fake.client
                 (fake.intent None (Some 10) (Some 40) 0 (Some fake.signer))
                 (Some fake.taikoL1) [] fake.payload)).
Proof.
  apply (proj1 (tip_cap_override_or_suggestion fake.client
                  (fake.intent None (Some 10) (Some 40) 0 (Some fake.signer))
                  (Some fake.taikoL1) [] fake.payload) 10 eq_refl).
Defined.

(** No recipient and a value of 2^256 + 5: the zero address and the
    value 5. *)
Lemma recipient_witness :
  exists tx,
    result (createBlobTx fake.client
              (withValue fake.opts (Some (2 ^ 256 + 5))) None []
              fake.payload) = Done (Some tx, None)
    /\ types.To (types.inner tx) = repeat x00 20
    /\ types.Value (types.inner tx) = 5.
Proof.
  eexists. split; [reflexivity|].
  edestruct (proj1 (recipient_and_value_are_normalised fake.client
                      (withValue fake.opts (Some (2 ^ 256 + 5))) None []
                      fake.payload))
    as (Hto & Hvalue & _); [reflexivity|].
  split; [exact Hto | exact Hvalue].
Defined.

(** The assembled transaction of the test intent. *)
Lemma one_blob_witness :
  exists tx,
    result (createBlobTx fake.client fake.opts (Some fake.taikoL1) [x0a]
              fake.payload) = Done (Some tx, None)
    /\ types.Data (types.inner tx) = [x0a]
    /\ List.length (types.BlobHashes_ (types.inner tx)) = 1%nat.
Proof.
  eexists. split; [reflexivity|].
  edestruct (assembled_transaction_carries_one_blob fake.client fake.opts
               (Some fake.taikoL1) [x0a] fake.payload)
    as (Hdata & _ & sidecar & commitment & _ & _ & _ & Hhashes);
    [reflexivity|].
  split; [exact Hdata|]. rewrite Hhashes. reflexivity.
Defined.

(** A header without base fee and an intent without fee cap. *)
Lemma fault_witness :
  result (createBlobTx fake.clientNoBaseFee fake.opts (Some fake.taikoL1) []
            fake.payload) = Panic
  /\ exists header,
       HeaderByNumber fake.clientNoBaseFee (ctx 0) None = inl header
       /\ types.BaseFee header = None.
Proof.
  split; [reflexivity|].
  destruct (faults_only_without_base_fee_or_on_overflow fake.clientNoBaseFee
              fake.opts (Some fake.taikoL1) [] fake.payload eq_refl)
    as (header & tip & Hheader & _ & [[_ Hbase]|(fee & Hfee & _)]).
  - exists header. split; [exact Hheader | exact Hbase].
  - injection Hheader as <-. discriminate Hfee.
Defined.

(** The test intent leaves everything open: five requests. *)
Lemma five_requests_witness :
  map method (calls (createBlobTx fake.client fake.opts (Some fake.taikoL1)
                       [] fake.payload)) =
  [0; 1; 2; 3; 4]%nat.
Proof.
  refine (proj1 (successful_construction_requests fake.client fake.opts
                   (Some fake.taikoL1) [] fake.payload _ _)).
  reflexivity.
Defined.

(** A client on chain 2^64 + 167: the chain id still fits its field. *)
Lemma fields_witness :
  exists tx,
    result (createBlobTx (withChainID fake.client (inl (2 ^ 64 + 167)))
              fake.opts (Some fake.taikoL1) [] fake.payload) =
    Done (Some tx, None)
    /\ 0 <= types.ChainID (types.inner tx) < 2 ^ 64.
Proof.
  eexists. split; [reflexivity|].
  refine (proj1 (assembled_numbers_fit_their_fields
                   (withChainID fake.client (inl (2 ^ 64 + 167))) fake.opts
                   (Some fake.taikoL1) [] fake.payload _ _)).
  reflexivity.
Defined.

(** The default fee cap for base fee 7, against the client that refuses
    the pending-nonce request. *)
Lemma default_fee_cap_witness :
  result (createBlobTx fake.clientNonceFails fake.opts (Some fake.taikoL1) []
            fake.payload) =
  Done (None, Some (foreign "unknown account"%string))
  /\ InvalidFeeOrdering (foreign "unknown account"%string) = false.
Proof.
  split; [reflexivity|].
  apply (default_fee_cap_passes_the_fee_check fake.clientNonceFails fake.opts
           (Some fake.taikoL1) [] fake.payload fake.header 7
           eq_refl eq_refl ltac:(lia) eq_refl None).
  reflexivity.
Defined.
